(** * tcga-fhir: the TSV-to-FHIR converter (src/converter.py)

    A shallow embedding of [converter.py] and the properties of its
    bundles and of its two run modes.

    Conventions of the embedding.
    - A Python [str] is a Rocq [string].  The clinical table is ASCII,
      and the embedding is exact on ASCII fields: [PyStr.lower] folds
      the letters A to Z and [PyFloat.parse] reads ASCII digits and
      ASCII white space, whereas Python also folds, and reads digits and
      white space among, the characters beyond ASCII.  The theorems on
      rows assume that the fields read character by character are ASCII
      ([faithful_row]).
    - The four module-level dictionaries and the global
      [research_study_id] are fields of [State]; the code runs in the
      monad [M], which threads that state and may raise.
    - [uuid.uuid4()] draws the next element of a sequence [uuid4_stream]
      that stands for the random source of one run; its elements are
      UUID strings, which the library takes as ids.
    - A Python [float] is a binary64 number, written as a [spec_float]
      of the Standard Library (precision 53, [emax] 1024).
    - The resources of [fhir.resources] are records.  [construct()]
      does not validate, but an assignment to a field of a resource
      does: a value the library refuses raises [ValidationError].  The
      validators of the library's string and code types are parameters
      of the embedding ([valid_string], [valid_code]); the decimal type
      is written out ([PyDecimal.of_float]).  Assignments of literals,
      of booleans, of resources and of the drawn ids pass in every run
      and are plain record fields. *)

From Stdlib Require Import ZArith QArith Qabs String Ascii List.
From Stdlib Require Import Floats.SpecFloat.
From stdpp Require Import base option list gmap strings pretty.

Local Open Scope string_scope.
Local Open Scope Z_scope.

(** ** Python strings *)

Module PyStr.

Definition code (c : ascii) : Z := Z.of_N (N_of_ascii c).

Definition in_range (lo hi : Z) (c : ascii) : bool :=
  (lo <=? code c) && (code c <=? hi).

Definition is_upper : ascii -> bool := in_range 65 90.
Definition is_digit : ascii -> bool := in_range 48 57.

(** [Py_ISSPACE]: tab, line feed, vertical tab, form feed, carriage
    return and the blank. *)
Definition is_space (c : ascii) : bool :=
  in_range 9 13 c || (code c =? 32).

Definition lower_char (c : ascii) : ascii :=
  if is_upper c then ascii_of_N (N_of_ascii c + 32) else c.

(** [str.lower()] *)
Fixpoint lower (s : string) : string :=
  match s with
  | EmptyString => EmptyString
  | String c r => String (lower_char c) (lower r)
  end.

(** [str.split(sep)] for a one-character separator: every occurrence
    of [sep] cuts, so the result is never empty. *)
Fixpoint split (sep : ascii) (s : string) : list string :=
  match s with
  | EmptyString => [EmptyString]
  | String c r =>
      if Ascii.eqb c sep then EmptyString :: split sep r
      else match split sep r with
           | w :: ws => String c w :: ws
           | [] => [String c EmptyString]
           end
  end.

(** [sep.join(words)] *)
Fixpoint join (sep : string) (words : list string) : string :=
  match words with
  | [] => EmptyString
  | [w] => w
  | w :: r => w ++ sep ++ join sep r
  end.

(** Every character of [s] is an ASCII character. *)
Fixpoint is_ascii (s : string) : bool :=
  match s with
  | EmptyString => true
  | String c r => (code c <? 128) && is_ascii r
  end.

(** [a == b] on strings, as a proposition's truth value. *)
Definition eq (a b : string) : bool := String.eqb a b.

End PyStr.

(** ** Python's [float(str)]

    The three stages of CPython's [PyFloat_FromString]: underscores may
    only stand between two digits and are dropped; white space is
    stripped at both ends; what is left must be, as a whole, a signed
    decimal numeral with an optional exponent, or one of [inf],
    [infinity], [nan] in any letter case.  Anything else is a
    [ValueError]. *)

Module PyFloat.
Import PyStr.

(** The loop of [_Py_string_to_number_with_underscores]; [prev] is the
    character before the current one, NUL at the start. *)
Fixpoint drop_underscores (prev : ascii) (s : string) : option string :=
  match s with
  | EmptyString => if Ascii.eqb prev "_" then None else Some EmptyString
  | String c r =>
      if Ascii.eqb c "_" then
        if is_digit prev then drop_underscores c r else None
      else if Ascii.eqb prev "_" && negb (is_digit c) then None
      else String c <$> drop_underscores c r
  end.

Fixpoint lstrip (s : string) : string :=
  match s with
  | String c r => if is_space c then lstrip r else s
  | EmptyString => EmptyString
  end.

Fixpoint rstrip (s : string) : string :=
  match s with
  | EmptyString => EmptyString
  | String c r =>
      match rstrip r with
      | EmptyString => if is_space c then EmptyString else String c EmptyString
      | r' => String c r'
      end
  end.

(** The longest prefix of decimal digits, and the rest. *)
Fixpoint span_digits (s : string) : string * string :=
  match s with
  | String c r =>
      if is_digit c then let (d, t) := span_digits r in (String c d, t)
      else (EmptyString, s)
  | EmptyString => (EmptyString, EmptyString)
  end.

(** The value of a string of digits, most significant first. *)
Fixpoint digits_value (acc : Z) (s : string) : Z :=
  match s with
  | EmptyString => acc
  | String c r => digits_value (10 * acc + (code c - 48)) r
  end.

Definition strlen (s : string) : Z := Z.of_nat (String.length s).

(** An optional sign: [true] for a minus. *)
Definition take_sign (s : string) : bool * string :=
  match s with
  | String "-" r => (true, r)
  | String "+" r => (false, r)
  | _ => (false, s)
  end.

(** The exponent part [e[+-]digits]; when no digit follows, nothing is
    consumed and the exponent is 0. *)
Definition take_exponent (s : string) : Z * string :=
  match s with
  | String c r =>
      if Ascii.eqb c "e" || Ascii.eqb c "E" then
        let (neg, r1) := take_sign r in
        let (ds, r2) := span_digits r1 in
        match ds with
        | EmptyString => (0, s)
        | _ => ((if neg then - digits_value 0 ds else digits_value 0 ds), r2)
        end
      else (0, s)
  | EmptyString => (0, s)
  end.

(** An unsigned numeral read to the end of the string:
    [(m, e)] stands for [m * 10^e]. *)
Definition parse_decimal (s : string) : option (Z * Z) :=
  let (ip, r1) := span_digits s in
  let (fp, r2) :=
    match r1 with
    | String "." r => span_digits r
    | _ => (EmptyString, r1)
    end in
  match ip, fp with
  | EmptyString, EmptyString => None
  | _, _ =>
      let (ex, r3) := take_exponent r2 in
      match r3 with
      | EmptyString => Some (digits_value 0 (ip ++ fp), ex - strlen fp)
      | _ => None
      end
  end.

(** [_Py_parse_inf_or_nan], after the sign. *)
Definition parse_inf_or_nan (neg : bool) (s : string) : option spec_float :=
  let l := lower s in
  if eq l "inf" || eq l "infinity" then Some (S754_infinity neg)
  else if eq l "nan" then Some S754_nan
  else None.

(** The binary64 number nearest to [m * 10^e] (ties to even), for
    [0 <= m]; beyond the largest finite number it is an infinity. *)
Definition round_decimal (neg : bool) (m e : Z) : spec_float :=
  match m with
  | Zpos p =>
      match e with
      | Zneg k =>
          SFdiv 53 1024 (S754_finite neg p 0)
                        (S754_finite false (Pos.pow 10 k) 0)
      | _ =>
          let n := (p * Z.to_pos (10 ^ e))%positive in
          binary_normalize 53 1024 (if neg then Zneg n else Zpos n) 0 neg
      end
  | _ => S754_zero neg
  end.

Definition parse (s : string) : option spec_float :=
  s1 ← drop_underscores "000" s;
  let s2 := rstrip (lstrip s1) in
  let (neg, body) := take_sign s2 in
  match parse_decimal body with
  | Some (m, e) => Some (round_decimal neg m e)
  | None => parse_inf_or_nan neg body
  end.

(** The field reads as a decimal numeral: the first branch of [parse]. *)
Definition is_decimal_numeral (s : string) : bool :=
  match drop_underscores "000" s with
  | Some s1 =>
      let (_, body) := take_sign (rstrip (lstrip s1)) in
      bool_decide (is_Some (parse_decimal body))
  | None => false
  end.

(** [math.isfinite(x)] *)
Definition is_finite (x : spec_float) : bool :=
  match x with
  | S754_zero _ | S754_finite _ _ _ => true
  | S754_infinity _ | S754_nan => false
  end.

(** The exact rational value of a finite binary64 number. *)
Definition to_Q (x : spec_float) : option Q :=
  match x with
  | S754_zero _ => Some 0%Q
  | S754_finite s m e =>
      let v := if s then Zneg m else Zpos m in
      Some (match e with
            | Zneg k => Qmake v (Pos.pow 2 k)
            | _ => inject_Z (v * 2 ^ e)
            end)
  | _ => None
  end.

End PyFloat.


(** ** [decimal.Decimal] and the library's decimal type

    The field [Age.value] holds a [Decimal].  Assigning a [float] to it
    makes the library build [Decimal(str(x))] and refuse a value that is
    not finite.  [str(x)] writes the shortest decimal that [float] reads
    back as [x], the nearest to [x] among the shortest: in positional
    notation, with [.0] after a whole number, when the decimal point
    falls within 16 digits before and 4 after the first digit, and with
    an exponent otherwise.  A [Decimal] keeps the digits as written: its
    sign, its coefficient and its power of ten. *)

Module PyDecimal.

Record t := mk { negative : bool; coefficient : Z; exponent : Z }.

(** The rational value. *)
Definition to_Q (d : t) : Q :=
  let c := if negative d then - coefficient d else coefficient d in
  match exponent d with
  | Zneg k => Qmake c (Pos.pow 10 k)
  | e => inject_Z (c * 10 ^ e)
  end.

Definition opp (d : t) : t :=
  mk (negb (negative d)) (coefficient d) (exponent d).

(** [m * 2^e] as a fraction [(n, d)]. *)
Definition fraction (m : positive) (e : Z) : Z * Z :=
  match e with
  | Zneg k => (Zpos m, 2 ^ Zpos k)
  | _ => (Zpos m * 2 ^ e, 1)
  end.

(** The integer part of [n / d / 10^s]. *)
Definition scaled_floor (n d s : Z) : Z :=
  match s with
  | Zneg k => (n * 10 ^ Zpos k) / d
  | _ => n / (d * 10 ^ s)
  end.

(** The largest [t] with [10^t <= n / d], searched upwards from [t]. *)
Fixpoint floor_log10_from (fuel : nat) (n d t : Z) : Z :=
  match fuel with
  | O => t
  | S f =>
      if 1 <=? scaled_floor n d (t + 1)
      then floor_log10_from f n d (t + 1) else t
  end.

Definition floor_log10 (n d : Z) : Z :=
  floor_log10_from 6 n d ((Z.log2 n - Z.log2 d) * 30103 / 100000 - 2).

(** [n / d] is at most half way from [lo * 10^s] to [(lo + 1) * 10^s]. *)
Definition nearer_below (n d lo s : Z) : bool :=
  match s with
  | Zneg k => 2 * n * 10 ^ Zpos k <=? (2 * lo + 1) * d
  | _ => 2 * n <=? (2 * lo + 1) * d * 10 ^ s
  end.

(** [float] reads [c * 10^s] back as the positive number [m * 2^e]. *)
Definition reads_back (m : positive) (e c s : Z) : bool :=
  match PyFloat.round_decimal false c s with
  | S754_finite false m' e' => Pos.eqb m m' && Z.eqb e e'
  | _ => false
  end.

(** The shortest coefficient, tried with [k], [k + 1], ... digits; [t]
    is the power of ten of the leading digit. *)
Fixpoint shortest (fuel : nat) (m : positive) (e t k : Z) : Z * Z :=
  let (n, d) := fraction m e in
  let s := t - (k - 1) in
  let lo := scaled_floor n d s in
  match fuel with
  | O => (if nearer_below n d lo s then lo else lo + 1, s)
  | S f =>
      match reads_back m e lo s, reads_back m e (lo + 1) s with
      | true, true => (if nearer_below n d lo s then lo else lo + 1, s)
      | true, false => (lo, s)
      | false, true => (lo + 1, s)
      | false, false => shortest f m e t (k + 1)
      end
  end.

(** Zeros at the end of the coefficient go into the exponent. *)
Fixpoint strip_zeros (fuel : nat) (c s : Z) : Z * Z :=
  match fuel with
  | O => (c, s)
  | S f =>
      if (c =? 0) || negb (c mod 10 =? 0) then (c, s)
      else strip_zeros f (c / 10) (s + 1)
  end.

(** The digits [str(x)] writes for the positive number [m * 2^e]. *)
Definition repr_digits (m : positive) (e : Z) : Z * Z :=
  let (n, d) := fraction m e in
  let (c, s) := shortest 16 m e (floor_log10 n d) 1 in
  strip_zeros 20 c s.

(** The number of digits of [c]. *)
Fixpoint digits_count (fuel : nat) (c : Z) : Z :=
  match fuel with
  | O => 0
  | S f => if c <? 10 then 1 else 1 + digits_count f (c / 10)
  end.

(** [Decimal(str(x))] for the positive number of digits [c] and power
    of ten [p]: a whole number of at most 16 digits is written out with
    [.0], so its zeros and one more are in the coefficient. *)
Definition of_digits (s : bool) (c p : Z) : t :=
  if (0 <=? p) && (p + digits_count 20 c <=? 16)
  then mk s (c * 10 ^ (p + 1)) (-1)
  else mk s c p.

(** What the assignment of the float [x] to a decimal field stores;
    [None] when the library refuses [x].  [str] writes a zero as [0.0]. *)
Definition of_float (x : spec_float) : option t :=
  match x with
  | S754_zero s => Some (mk s 0 (-1))
  | S754_finite s m e => let (c, p) := repr_digits m e in Some (of_digits s c p)
  | S754_infinity _ | S754_nan => None
  end.

End PyDecimal.
(** ** The resources of [fhir.resources]

    One record per resource class, with the fields the converter
    assigns, each holding what the library stores for the value
    assigned.  A field the converter may leave as Python's [None] is an
    [option]. *)

Module Identifier.
Record t := mk { system : string; value : string }.
End Identifier.

Module Reference.
Record t := mk { reference : string }.
End Reference.

Module Coding.
Record t := mk { system : string; code : string; display : option string }.
End Coding.

Module CodeableConcept.
Record t := mk { coding : list Coding.t }.
End CodeableConcept.

Module Age.
Record t := mk { value : PyDecimal.t; unit : string }.
End Age.

Module ResearchStudy.
Record t := mk {
  status : string;
  identifier : list Identifier.t;
  name : string;
  title : string;
  version : string;
  id : string;
  progressStatus : list CodeableConcept.t }.
End ResearchStudy.

Module Patient.
Record t := mk {
  identifier : list Identifier.t;
  gender : string;
  deceasedBoolean : bool;
  id : string }.
End Patient.

Module ResearchSubject.
Record t := mk {
  status : string;
  subject : Reference.t;
  study : Reference.t;
  identifier : list Identifier.t;
  id : string }.
End ResearchSubject.

Module Condition.
Record t := mk {
  clinicalStatus : CodeableConcept.t;
  subject : Reference.t;
  onsetAge : Age.t;
  id : string;
  code : CodeableConcept.t }.
End Condition.

Module Procedure.
Record t := mk {
  status : string;
  subject : Reference.t;
  id : string;
  code : CodeableConcept.t }.
End Procedure.

(** What a bundle entry may hold. *)
Inductive Resource :=
| RPatient (r : Patient.t)
| RResearchSubject (r : ResearchSubject.t)
| RCondition (r : Condition.t)
| RProcedure (r : Procedure.t).

Module BundleEntryRequest.
Record t := mk { url : string; method : string; ifNoneExist : option string }.
End BundleEntryRequest.

Module BundleEntry.
Record t := mk {
  resource : Resource;
  request : BundleEntryRequest.t;
  fullUrl : string }.
End BundleEntry.

Module Bundle.
Record t := mk { type : string; entry : list BundleEntry.t }.
End Bundle.

(** ** The program state and its monad *)

(** A file the program writes under [bundles/]: its name and the
    resource serialised into it. *)
Inductive Output :=
| StudyFile (name : string) (study : ResearchStudy.t)
| BundleFile (name : string) (bundle : Bundle.t).

Record State := mkState {
  patients_uuid : gmap string string;
  research_subject_uuid : gmap string string;
  condition_uuid : gmap string string;
  procedure_uuid : gmap string string;
  research_study_id : option string;
  uuid4_calls : nat;
  written : list Output }.

(** The exceptions of the program.  [ValidationError] is the library's,
    a subclass of [ValueError]. *)
Inductive exn :=
| IndexError
| KeyError
| ValueError
| ValidationError
| NameError
| SystemExit (status : Z).

Inductive outcome (A : Type) :=
| Returns (a : A)
| Raises (e : exn).
Arguments Returns {A} a.
Arguments Raises {A} e.

Definition M (A : Type) : Type := State -> outcome A * State.

#[global] Instance M_ret : MRet M := fun A a st => (Returns a, st).

#[global] Instance M_bind : MBind M := fun A B k m st =>
  match m st with
  | (Returns a, st') => k a st'
  | (Raises e, st') => (Raises e, st')
  end.

Definition raise {A} (e : exn) : M A := fun st => (Raises e, st).

(** [for x in xs: body(x)] *)
Fixpoint for_each {A} (xs : list A) (body : A -> M unit) : M unit :=
  match xs with
  | [] => mret tt
  | x :: r => body x ;; for_each r body
  end.

(** [xs[i]] for a non-negative literal [i]. *)
Definition index {A} (xs : list A) (i : nat) : M A :=
  match xs !! i with
  | Some x => mret x
  | None => raise IndexError
  end.

(** [d[k]], where [d] is one of the module-level dictionaries. *)
Definition getitem (d : State -> gmap string string) (k : string) : M string :=
  fun st => match d st !! k with
            | Some v => (Returns v, st)
            | None => (Raises KeyError, st)
            end.

Definition set_patients_uuid (k v : string) : M unit := fun st =>
  (Returns tt,
   mkState (<[k:=v]> (patients_uuid st)) (research_subject_uuid st)
           (condition_uuid st) (procedure_uuid st) (research_study_id st)
           (uuid4_calls st) (written st)).

Definition set_research_subject_uuid (k v : string) : M unit := fun st =>
  (Returns tt,
   mkState (patients_uuid st) (<[k:=v]> (research_subject_uuid st))
           (condition_uuid st) (procedure_uuid st) (research_study_id st)
           (uuid4_calls st) (written st)).

Definition set_condition_uuid (k v : string) : M unit := fun st =>
  (Returns tt,
   mkState (patients_uuid st) (research_subject_uuid st)
           (<[k:=v]> (condition_uuid st)) (procedure_uuid st)
           (research_study_id st) (uuid4_calls st) (written st)).

Definition set_procedure_uuid (k v : string) : M unit := fun st =>
  (Returns tt,
   mkState (patients_uuid st) (research_subject_uuid st)
           (condition_uuid st) (<[k:=v]> (procedure_uuid st))
           (research_study_id st) (uuid4_calls st) (written st)).

(** Assignment to, and use of, the global [research_study_id]; it is
    unbound until the main block assigns it. *)
Definition set_research_study_id (v : string) : M unit := fun st =>
  (Returns tt,
   mkState (patients_uuid st) (research_subject_uuid st)
           (condition_uuid st) (procedure_uuid st) (Some v)
           (uuid4_calls st) (written st)).

Definition get_research_study_id : M string := fun st =>
  match research_study_id st with
  | Some v => (Returns v, st)
  | None => (Raises NameError, st)
  end.

(** [of.write(...)] into a freshly opened file. *)
Definition write (o : Output) : M unit := fun st =>
  (Returns tt,
   mkState (patients_uuid st) (research_subject_uuid st)
           (condition_uuid st) (procedure_uuid st) (research_study_id st)
           (uuid4_calls st) (written st ++ [o])%list).

(** [float(s)] *)
Definition float (s : string) : M spec_float :=
  match PyFloat.parse s with
  | Some x => mret x
  | None => raise ValueError
  end.

(** The assignment of [x] to a field that a validator guards: the
    assignment raises when the validator refuses [x]. *)
Definition validated {A} (valid : A -> bool) (x : A) : M unit :=
  if valid x then mret tt else raise ValidationError.

(** The assignment of the float [x] to a decimal field; it gives what
    the field then holds. *)
Definition decimal_field (x : spec_float) : M PyDecimal.t :=
  match PyDecimal.of_float x with
  | Some d => mret d
  | None => raise ValidationError
  end.

(** The state at program start. *)
Definition initial : State := mkState ∅ ∅ ∅ ∅ None 0 [].

(** ** [converter.py] *)

Definition PATIENT_ID_SYSTEM : string := "https://www.gmds.de/pk-nachwuchs/patient".
Definition STUDY_PATIENT_ID_SYSTEM : string := "https://www.cbioportal.org/patient".
Definition STUDY_ID_SYSTEM : string := "https://www.cbioportal.org/study".
Definition STUDY_ID_VALUE : string := "paad_tcga_pan_can_atlas_2018".

Definition get_label (icd_10_code : string) : option string :=
  if PyStr.eq icd_10_code "C25.0" then
    Some "Bösartige Neubildung: Pankreaskopf"
  else if PyStr.eq icd_10_code "C25.1" then
    Some "Bösartige Neubildung: Pankreaskörper"
  else if PyStr.eq icd_10_code "C25.2" then
    Some "Bösartige Neubildung: Pankreasschwanz"
  else if PyStr.eq icd_10_code "C25.3" then
    Some "Bösartige Neubildung: Ductus pancreaticus"
  else if PyStr.eq icd_10_code "C25.4" then
    Some "Bösartige Neubildung: Endokriner Drüsenanteil des Pankreas"
  else if PyStr.eq icd_10_code "C25.7" then
    Some "Bösartige Neubildung: Sonstige Teile des Pankreas"
  else if PyStr.eq icd_10_code "C25.8" then
    Some "Bösartige Neubildung: Pankreas, mehrere Teilbereiche überlappend"
  else if PyStr.eq icd_10_code "C25.9" then
    Some "Bösartige Neubildung: Pankreas, nicht näher bezeichnet"
  else None.

(** The request built at lines 185-190 of [create_bundle]; the function
    binds it to a local name and does not use it again. *)
Definition research_study_request : BundleEntryRequest.t :=
  BundleEntryRequest.mk "ResearchStudy" "POST"
    (Some ("identifier=" +:+ STUDY_ID_SYSTEM +:+ "|" +:+ STUDY_ID_VALUE)).

Definition plain_request (url : string) : BundleEntryRequest.t :=
  BundleEntryRequest.mk url "POST" None.

(** The two flags of [create_bundle]:
    [True if data_values[35] == "0:LIVING" else False] and
    [True if data_values[46] == "Yes" else False]. *)
Definition living_status_of (field : string) : bool :=
  if PyStr.eq field "0:LIVING" then true else false.

Definition radio_therapy_of (field : string) : bool :=
  if PyStr.eq field "Yes" then true else false.

Section Converter.

(** The values that the successive calls of [uuid.uuid4()] return in
    this run, as strings. *)
Variable uuid4_stream : nat -> string.

(** The library's validators of the string type (of [Identifier.value]
    and [BundleEntryRequest.ifNoneExist]) and of the code type (of
    [Patient.gender]): what an assignment to such a field accepts. *)
Variable valid_string : string -> bool.
Variable valid_code : string -> bool.

Definition uuid4 : M string := fun st =>
  (Returns (uuid4_stream (uuid4_calls st)),
   mkState (patients_uuid st) (research_subject_uuid st)
           (condition_uuid st) (procedure_uuid st) (research_study_id st)
           (S (uuid4_calls st)) (written st)).

Definition create_research_study : M ResearchStudy.t :=
  let identifier := Identifier.mk STUDY_ID_SYSTEM "paad_tcga_pan_can_atlas_2018" in
  rid ← get_research_study_id;
  mret {| ResearchStudy.status := "active";
          ResearchStudy.identifier := [identifier];
          ResearchStudy.name := "tcga_pancreatic_adenocarcinoma";
          ResearchStudy.title := "Pancreatic Adenocarcinoma (TCGA, PanCancer Atlas)";
          ResearchStudy.version := "1.0.0";
          ResearchStudy.id := rid;
          ResearchStudy.progressStatus :=
            [CodeableConcept.mk
               [Coding.mk "http://hl7.org/fhir/research-study-status"
                          "completed" (Some "Completed")]] |}.

Definition create_patient (study_subject_id patient_id gender : string)
    (living_status : bool) : M Patient.t :=
  (* line 60: pat_identifier.value = patient_id.lower() *)
  validated valid_string (PyStr.lower patient_id);;
  let pat_identifier := Identifier.mk PATIENT_ID_SYSTEM (PyStr.lower patient_id) in
  u ← uuid4;
  set_patients_uuid study_subject_id u;;
  (* line 66: pat.gender = gender.lower() *)
  validated valid_code (PyStr.lower gender);;
  pid ← getitem patients_uuid study_subject_id;
  mret {| Patient.identifier := [pat_identifier];
          Patient.gender := PyStr.lower gender;
          Patient.deceasedBoolean := living_status;
          Patient.id := pid |}.

Definition create_research_subject (study_patient_id : string)
    : M ResearchSubject.t :=
  p ← getitem patients_uuid study_patient_id;
  let pat_ref := Reference.mk ("Patient/" +:+ p) in
  rid ← get_research_study_id;
  let study_ref := Reference.mk ("ResearchStudy/" +:+ rid) in
  u ← uuid4;
  set_research_subject_uuid study_patient_id u;;
  (* line 84: pat_identifier.value = study_patient_id *)
  validated valid_string study_patient_id;;
  let pat_identifier := Identifier.mk STUDY_PATIENT_ID_SYSTEM study_patient_id in
  sid ← getitem research_subject_uuid study_patient_id;
  mret {| ResearchSubject.status := "active";
          ResearchSubject.subject := pat_ref;
          ResearchSubject.study := study_ref;
          ResearchSubject.identifier := [pat_identifier];
          ResearchSubject.id := sid |}.

Definition create_condition (study_subject_id icd_code onset_age : string)
    : M Condition.t :=
  (* line 112: age.value = float(onset_age) *)
  x ← float onset_age;
  v ← decimal_field x;
  let age := Age.mk v "a" in
  p ← getitem patients_uuid study_subject_id;
  u ← uuid4;
  set_condition_uuid study_subject_id u;;
  cid ← getitem condition_uuid study_subject_id;
  mret {| Condition.clinicalStatus :=
            CodeableConcept.mk
              [Coding.mk "http://terminology.hl7.org/CodeSystem/condition-clinical"
                         "active" (Some "Active")];
          Condition.subject := Reference.mk ("Patient/" +:+ p);
          Condition.onsetAge := age;
          Condition.id := cid;
          Condition.code :=
            CodeableConcept.mk
              [Coding.mk "http://fhir.de/CodeSystem/bfarm/icd-10-gm"
                         icd_code (get_label icd_code)] |}.

Definition create_procedure (study_subject_id : string) : M Procedure.t :=
  p ← getitem patients_uuid study_subject_id;
  u ← uuid4;
  set_procedure_uuid study_subject_id u;;
  pid ← getitem procedure_uuid study_subject_id;
  mret {| Procedure.status := "completed";
          Procedure.subject := Reference.mk ("Patient/" +:+ p);
          Procedure.id := pid;
          Procedure.code :=
            CodeableConcept.mk
              [Coding.mk "http://snomed.info/sct" "1287742003"
                         (Some "Radiotherapy (procedure)")] |}.

Definition create_bundle (data_values : list string) : M (Bundle.t * string) :=
  study_subject_id ← index data_values 1;
  onset_age ← index data_values 3;
  icd_10_code ← index data_values 24;
  living ← index data_values 35;
  let is_alive := living_status_of living in
  secondary_pat_id ← index data_values 36;
  radio ← index data_values 46;
  let radio_therapy := radio_therapy_of radio in
  gender ← index data_values 50;
  (* lines 181-183: pat_entry_request.ifNoneExist = ... *)
  let patient_guard :=
    "identifier=" +:+ PATIENT_ID_SYSTEM +:+ "|" +:+ PyStr.lower secondary_pat_id in
  validated valid_string patient_guard;;
  let pat_entry_request :=
    BundleEntryRequest.mk "Patient" "POST" (Some patient_guard) in
  let _unused := research_study_request in
  (* lines 195-197: research_subject_request.ifNoneExist = ... *)
  let subject_guard :=
    "identifier=" +:+ STUDY_PATIENT_ID_SYSTEM +:+ "|" +:+ study_subject_id in
  validated valid_string subject_guard;;
  let research_subject_request :=
    BundleEntryRequest.mk "ResearchSubject" "POST" (Some subject_guard) in
  pat ← create_patient study_subject_id secondary_pat_id gender is_alive;
  research_subject ← create_research_subject study_subject_id;
  condition ← create_condition study_subject_id icd_10_code onset_age;
  procedure_entry ←
    (if radio_therapy then
       procedure ← create_procedure study_subject_id;
       u ← getitem procedure_uuid study_subject_id;
       mret (Some (BundleEntry.mk (RProcedure procedure)
                     (plain_request "Procedure") ("Procedure/" +:+ u)))
     else mret None);
  pu ← getitem patients_uuid study_subject_id;
  let pat_entry :=
    BundleEntry.mk (RPatient pat) pat_entry_request ("Patient/" +:+ pu) in
  su ← getitem research_subject_uuid study_subject_id;
  let research_subject_entry :=
    BundleEntry.mk (RResearchSubject research_subject) research_subject_request
      ("ResearchSubject/" +:+ su) in
  cu ← getitem condition_uuid study_subject_id;
  let condition_entry :=
    BundleEntry.mk (RCondition condition) (plain_request "Condition")
      ("Condition/" +:+ cu) in
  let entry := [pat_entry; research_subject_entry; condition_entry] in
  (* [if procedure_entry:] an entry object is true, [None] is false *)
  let entry :=
    match procedure_entry with
    | Some e => (entry ++ [e])%list
    | None => entry
    end in
  mret (Bundle.mk "transaction" entry, study_subject_id).

(** [not args.research_study_id]: an argument that was not given is
    [None], and [None] and the empty string are false. *)
Definition falsy (a : option string) : bool :=
  match a with
  | None => true
  | Some EmptyString => true
  | Some _ => false
  end.

(** The body of the loop over [lines[1:]]. *)
Definition process_line (line : string) : M unit :=
  let values := PyStr.split "009" line in
  '(bundle, subject_id) ← create_bundle values;
  write (BundleFile (subject_id +:+ ".json") bundle).

(** The main block, after the table was read into [lines] and the
    command line into [research_study_id_arg]. *)
Definition main (lines : list string) (research_study_id_arg : option string)
    : M unit :=
  (if falsy research_study_id_arg then
     u ← uuid4;
     set_research_study_id u;;
     study ← create_research_study;
     write (StudyFile "study.json" study);;
     raise (SystemExit 0)
   else
     set_research_study_id (default EmptyString research_study_id_arg));;
  for_each (tail lines) process_line.

End Converter.

(** [s.count(c)] for a character [c]. *)
Fixpoint str_count (c : ascii) (s : string) : nat :=
  match s with
  | EmptyString => 0
  | String a r => (if Ascii.eqb a c then 1 else 0) + str_count c r
  end.

(** Every character of [s] satisfies [p]. *)
Fixpoint str_all (p : ascii -> bool) (s : string) : bool :=
  match s with
  | EmptyString => true
  | String a r => p a && str_all p r
  end.

(** ** Decimal numbers, as the documentation of [float] writes them

    The grammar of the Python documentation for the argument of
    [float], without its [inf] and [nan]:
    [[sign] (digitpart ["." [digitpart]] | "." digitpart) [exponent]]
    between white space, where an underscore may stand between two
    digits.  It is stated on its own, not through [PyFloat.parse]. *)

Module DecimalSyntax.

Definition spaces (s : string) : Prop := str_all PyStr.is_space s = true.
Definition digits (s : string) : Prop := str_all PyStr.is_digit s = true.
Definition sign (s : string) : Prop := s = "" ∨ s = "+" ∨ s = "-".

(** [underscored p s t]: [t] is [s] without its underscores, each of
    which stands between two digits; [p] is the character before [s]. *)
Inductive underscored : ascii -> string -> string -> Prop :=
| u_end p : underscored p "" ""
| u_char p c s t :
    c ≠ "_"%char -> underscored c s t ->
    underscored p (String c s) (String c t)
| u_skip p d s t :
    PyStr.is_digit p = true -> PyStr.is_digit d = true ->
    underscored d s t ->
    underscored p (String "_" (String d s)) (String d t).

Definition number (s : string) : Prop :=
  ∃ ip dot fp,
    s = (ip ++ dot ++ fp)%string ∧ digits ip ∧ digits fp ∧
    ((dot = "" ∧ fp = "" ∧ ip ≠ "") ∨ (dot = "." ∧ (ip ≠ "" ∨ fp ≠ ""))).

Definition exponent (s : string) : Prop :=
  s = "" ∨
  ∃ e sg d, s = (e ++ sg ++ d)%string ∧ (e = "e" ∨ e = "E") ∧
            sign sg ∧ digits d ∧ d ≠ "".

(** A decimal number without underscores. *)
Definition plain (t : string) : Prop :=
  ∃ a sg n ex b,
    t = (a ++ sg ++ n ++ ex ++ b)%string ∧
    spaces a ∧ sign sg ∧ number n ∧ exponent ex ∧ spaces b.

Definition decimal_number (s : string) : Prop :=
  ∃ t, underscored "000" s t ∧ plain t.

End DecimalSyntax.

(** No character of [s] is a digit. *)
Definition no_digit (s : string) : bool :=
  str_all (fun c => negb (PyStr.is_digit c)) s.

(** ** Reading a bundle *)

Inductive Kind := KPatient | KResearchSubject | KCondition | KProcedure.

Definition kind_of (r : Resource) : Kind :=
  match r with
  | RPatient _ => KPatient
  | RResearchSubject _ => KResearchSubject
  | RCondition _ => KCondition
  | RProcedure _ => KProcedure
  end.

(** The [id] of a resource. *)
Definition resource_id (r : Resource) : string :=
  match r with
  | RPatient p => Patient.id p
  | RResearchSubject s => ResearchSubject.id s
  | RCondition c => Condition.id c
  | RProcedure p => Procedure.id p
  end.

(** The references of a resource to the Patient. *)
Definition patient_references (r : Resource) : list string :=
  match r with
  | RPatient _ => []
  | RResearchSubject s => [Reference.reference (ResearchSubject.subject s)]
  | RCondition c => [Reference.reference (Condition.subject c)]
  | RProcedure p => [Reference.reference (Procedure.subject p)]
  end.

(** The references of a resource to the ResearchStudy. *)
Definition study_references (r : Resource) : list string :=
  match r with
  | RResearchSubject s => [Reference.reference (ResearchSubject.study s)]
  | _ => []
  end.

Definition references (r : Resource) : list string :=
  (patient_references r ++ study_references r)%list.

Definition resources (b : Bundle.t) : list Resource :=
  BundleEntry.resource <$> Bundle.entry b.

Definition kinds (b : Bundle.t) : list Kind := kind_of <$> resources b.

Definition full_urls (b : Bundle.t) : list string :=
  BundleEntry.fullUrl <$> Bundle.entry b.

Definition requests (b : Bundle.t) : list BundleEntryRequest.t :=
  BundleEntry.request <$> Bundle.entry b.

Definition bundle_ids (b : Bundle.t) : list string :=
  resource_id <$> resources b.

Definition bundle_references (b : Bundle.t) : list string :=
  resources b ≫= references.

(** No reference of the bundle dangles. *)
Definition closed_bundle (b : Bundle.t) : Prop :=
  ∀ u, u ∈ bundle_references b → u ∈ full_urls b.

Definition output_ids (o : Output) : list string :=
  match o with
  | StudyFile _ s => [ResearchStudy.id s]
  | BundleFile _ b => bundle_ids b
  end.


(** ** The columns of a row *)

Record Columns := mkColumns {
  col_subject : string;
  col_age : string;
  col_icd : string;
  col_living : string;
  col_secondary : string;
  col_radio : string;
  col_gender : string }.

(** The seven fields [create_bundle] reads, when the row has them all. *)
Definition columns (data_values : list string) : option Columns :=
  a ← data_values !! 1%nat;
  b ← data_values !! 3%nat;
  c ← data_values !! 24%nat;
  d ← data_values !! 35%nat;
  e ← data_values !! 36%nat;
  f ← data_values !! 46%nat;
  g ← data_values !! 50%nat;
  Some (mkColumns a b c d e f g).

(** What the age field is stored as: [float] reads it and the decimal
    field takes the number; [None] when either raises. *)
Definition age_decimal (field : string) : option PyDecimal.t :=
  x ← PyFloat.parse field; PyDecimal.of_float x.

(** The fields of the row that the embedding reads character by
    character ([lower], [float]) are ASCII, so that it reads them as
    Python does. *)
Definition faithful_row (data_values : list string) : bool :=
  match columns data_values with
  | Some c =>
      PyStr.is_ascii (col_secondary c) && PyStr.is_ascii (col_gender c)
      && PyStr.is_ascii (col_age c)
  | None => true
  end.

Definition patient_guard (c : Columns) : string :=
  "identifier=" +:+ PATIENT_ID_SYSTEM +:+ "|" +:+ PyStr.lower (col_secondary c).

Definition subject_guard (c : Columns) : string :=
  "identifier=" +:+ STUDY_PATIENT_ID_SYSTEM +:+ "|" +:+ col_subject c.

Section Acceptance.

Variable valid_string : string -> bool.
Variable valid_code : string -> bool.

(** The library accepts the five strings of the row that
    [create_bundle] and its builders assign to validated fields. *)
Definition fields_valid (c : Columns) : bool :=
  valid_string (patient_guard c) && valid_string (subject_guard c)
  && valid_string (PyStr.lower (col_secondary c))
  && valid_code (PyStr.lower (col_gender c))
  && valid_string (col_subject c).

(** A row [create_bundle] accepts: 51 fields or more, strings the
    library accepts, and an onset age that [float] reads as a finite
    number. *)
Definition accepted (data_values : list string) : bool :=
  match columns data_values with
  | Some c => fields_valid c && bool_decide (is_Some (age_decimal (col_age c)))
  | None => false
  end.

End Acceptance.

(** ** What [create_bundle] computes, in closed form *)

Section ClosedForm.

Variable uuid4_stream : nat -> string.
Variable valid_string : string -> bool.
Variable valid_code : string -> bool.

(** The entries for the columns [c] of a row, the onset age [v], the
    study [rid] and the four identifiers [u0 .. u3]. *)
Definition entries_of (c : Columns) (v : PyDecimal.t) (rid u0 u1 u2 u3 : string)
    : list BundleEntry.t :=
  let patient_url := "Patient/" +:+ u0 in
  [ BundleEntry.mk
      (RPatient
         (Patient.mk [Identifier.mk PATIENT_ID_SYSTEM (PyStr.lower (col_secondary c))]
            (PyStr.lower (col_gender c)) (living_status_of (col_living c)) u0))
      (BundleEntryRequest.mk "Patient" "POST" (Some (patient_guard c)))
      patient_url;
    BundleEntry.mk
      (RResearchSubject
         (ResearchSubject.mk "active" (Reference.mk patient_url)
            (Reference.mk ("ResearchStudy/" +:+ rid))
            [Identifier.mk STUDY_PATIENT_ID_SYSTEM (col_subject c)] u1))
      (BundleEntryRequest.mk "ResearchSubject" "POST" (Some (subject_guard c)))
      ("ResearchSubject/" +:+ u1);
    BundleEntry.mk
      (RCondition
         (Condition.mk
            (CodeableConcept.mk
               [Coding.mk "http://terminology.hl7.org/CodeSystem/condition-clinical"
                          "active" (Some "Active")])
            (Reference.mk patient_url) (Age.mk v "a") u2
            (CodeableConcept.mk
               [Coding.mk "http://fhir.de/CodeSystem/bfarm/icd-10-gm"
                          (col_icd c) (get_label (col_icd c))])))
      (plain_request "Condition")
      ("Condition/" +:+ u2) ]
  ++ (if radio_therapy_of (col_radio c) then
        [ BundleEntry.mk
            (RProcedure
               (Procedure.mk "completed" (Reference.mk patient_url) u3
                  (CodeableConcept.mk
                     [Coding.mk "http://snomed.info/sct" "1287742003"
                                (Some "Radiotherapy (procedure)")])))
            (plain_request "Procedure")
            ("Procedure/" +:+ u3) ]
      else [])%list.

(** The state once the Patient of [sid] is registered. *)
Definition registered_patient (sid : string) (st : State) : State :=
  mkState (<[sid:=uuid4_stream (uuid4_calls st)]> (patients_uuid st))
          (research_subject_uuid st) (condition_uuid st) (procedure_uuid st)
          (research_study_id st) (S (uuid4_calls st)) (written st).

Definition registered_subject (sid : string) (st : State) : State :=
  mkState (patients_uuid st)
          (<[sid:=uuid4_stream (uuid4_calls st)]> (research_subject_uuid st))
          (condition_uuid st) (procedure_uuid st)
          (research_study_id st) (S (uuid4_calls st)) (written st).

Definition registered_condition (sid : string) (st : State) : State :=
  mkState (patients_uuid st) (research_subject_uuid st)
          (<[sid:=uuid4_stream (uuid4_calls st)]> (condition_uuid st))
          (procedure_uuid st)
          (research_study_id st) (S (uuid4_calls st)) (written st).

Definition registered_procedure (sid : string) (st : State) : State :=
  mkState (patients_uuid st) (research_subject_uuid st) (condition_uuid st)
          (<[sid:=uuid4_stream (uuid4_calls st)]> (procedure_uuid st))
          (research_study_id st) (S (uuid4_calls st)) (written st).

(** The outcome of [create_bundle] and the state it leaves, by cases on
    the row and on the global [research_study_id], in the order in which
    the code meets them. *)
Definition bundle_outcome (data_values : list string) (st : State)
    : outcome (Bundle.t * string) * State :=
  match columns data_values with
  | None => (Raises IndexError, st)
  | Some c =>
      let sid := col_subject c in
      let n := uuid4_calls st in
      if negb (valid_string (patient_guard c) && valid_string (subject_guard c)
               && valid_string (PyStr.lower (col_secondary c)))
      then (Raises ValidationError, st)
      else
      let st1 := registered_patient sid st in
      if negb (valid_code (PyStr.lower (col_gender c)))
      then (Raises ValidationError, st1)
      else
      match research_study_id st with
      | None => (Raises NameError, st1)
      | Some rid =>
          let st2 := registered_subject sid st1 in
          if negb (valid_string sid) then (Raises ValidationError, st2)
          else
          match PyFloat.parse (col_age c) with
          | None => (Raises ValueError, st2)
          | Some x =>
              match PyDecimal.of_float x with
              | None => (Raises ValidationError, st2)
              | Some v =>
                  let st3 := registered_condition sid st2 in
                  (Returns
                     (Bundle.mk "transaction"
                        (entries_of c v rid (uuid4_stream n) (uuid4_stream (S n))
                           (uuid4_stream (S (S n))) (uuid4_stream (S (S (S n))))),
                      sid),
                   if radio_therapy_of (col_radio c)
                   then registered_procedure sid st3 else st3)
              end
          end
      end
  end.

End ClosedForm.

(** The codes [get_label] knows. *)
Definition known_codes : list string :=
  ["C25.0"; "C25.1"; "C25.2"; "C25.3"; "C25.4"; "C25.7"; "C25.8"; "C25.9"].

(** What the loop of the main block wrote for one line under the study
    [rid]: the bundle of an accepted row, named after its subject, whose
    enrollment refers to that study. *)
Definition written_for (valid_string valid_code : string -> bool)
    (rid line : string) (o : Output) : Prop :=
  accepted valid_string valid_code (PyStr.split "009" line) = true ∧
  ∃ c b, columns (PyStr.split "009" line) = Some c ∧
         o = BundleFile (col_subject c +:+ ".json") b ∧
         resources b ≫= study_references = ["ResearchStudy/" +:+ rid].

(** ** Further readings of a bundle, of the state and of a line *)

(** The name of the resource class of a kind. *)
Definition kind_name (k : Kind) : string :=
  match k with
  | KPatient => "Patient"
  | KResearchSubject => "ResearchSubject"
  | KCondition => "Condition"
  | KProcedure => "Procedure"
  end.

(** The dictionary in which the identifiers of a kind are registered. *)
Definition registry (k : Kind) : State -> gmap string string :=
  match k with
  | KPatient => patients_uuid
  | KResearchSubject => research_subject_uuid
  | KCondition => condition_uuid
  | KProcedure => procedure_uuid
  end.

(** The [identifier] list of a resource; the converter assigns none to
    a Condition or to a Procedure. *)
Definition resource_identifiers (r : Resource) : list Identifier.t :=
  match r with
  | RPatient p => Patient.identifier p
  | RResearchSubject s => ResearchSubject.identifier s
  | RCondition _ => []
  | RProcedure _ => []
  end.

(** The search an [ifNoneExist] makes for an identifier. *)
Definition identifier_query (i : Identifier.t) : string :=
  "identifier=" +:+ Identifier.system i +:+ "|" +:+ Identifier.value i.

Definition newline : string := String "010" EmptyString.

(** ** Ages as they are written in a table *)

(** The age [n.j] is stored as exactly [n + j/10]. *)
Definition one_decimal_stored (n j : nat) : bool :=
  match age_decimal (pretty n +:+ "." +:+ pretty j) with
  | Some d => Qeq_bool (PyDecimal.to_Q d) (Qmake (Z.of_nat (10 * n + j)) 10)
  | None => false
  end.

(** [float] reads the whole age [n] as [n] and the age [n.5] as
    [n + 1/2], with no rounding. *)
Definition age_read_exactly (n : nat) : bool :=
  match PyFloat.parse (pretty n), PyFloat.parse (pretty n +:+ ".5") with
  | Some x, Some y =>
      match PyFloat.to_Q x, PyFloat.to_Q y with
      | Some q, Some r =>
          Qeq_bool q (inject_Z (Z.of_nat n)) &&
          Qeq_bool r (Qmake (Z.of_nat (2 * n + 1)) 2)
      | _, _ => false
      end
  | _, _ => false
  end.

(** ** Sample data *)

Definition sample_uuid4 : nat -> string := pretty.

(** Validators for the sample data: a string is taken when it is not
    empty, a code when it is not empty and holds no white space.  They
    stand for the library's on the fields of the sample rows. *)
Definition sample_valid_string (s : string) : bool :=
  negb (String.eqb s EmptyString).

Definition sample_valid_code (s : string) : bool :=
  negb (String.eqb s EmptyString)
  && str_all (fun c => negb (PyStr.is_space c)) s.

(** A row of 51 fields with the seven read columns set. *)
Definition make_row (subject age icd living secondary radio gender : string)
    : list string :=
  <[1%nat:=subject]> (<[3%nat:=age]> (<[24%nat:=icd]> (<[35%nat:=living]>
    (<[36%nat:=secondary]> (<[46%nat:=radio]> (<[50%nat:=gender]>
      (replicate 51 "NA"))))))).

Definition sample_row : list string :=
  make_row "TCGA-2J-AAB1" "63.5" "C25.0" "0:LIVING" "TCGA-ABC" "Yes" "Male".

Definition sample_row_deceased : list string :=
  make_row "TCGA-2J-AAB1" "48" "Z99.9" "1:DECEASED" "TCGA-XYZ" "yes" "Female".

Definition sample_row_bad_age : list string :=
  make_row "TCGA-2J-AAB6" "unknown" "C25.0" "0:LIVING" "TCGA-ABE" "No" "Male".

Definition sample_row_no_secondary : list string :=
  make_row "TCGA-2J-AAB7" "51" "C25.0" "0:LIVING" "" "No" "Male".

Definition tab : string := String "009" EmptyString.

Definition sample_lines : list string :=
  ["header"; PyStr.join tab sample_row; PyStr.join tab sample_row_deceased].

Definition sample_lines_bad_age : list string :=
  ["header"; PyStr.join tab sample_row; PyStr.join tab sample_row_bad_age;
   PyStr.join tab sample_row_deceased].

(** A state in which the main block has bound the study. *)
Definition sample_state : State := mkState ∅ ∅ ∅ ∅ (Some "study-1") 0 [].

Definition sample_columns : Columns :=
  mkColumns "TCGA-2J-AAB1" "63.5" "C25.0" "0:LIVING" "TCGA-ABC" "Yes" "Male".

Definition sample_columns_deceased : Columns :=
  mkColumns "TCGA-2J-AAB1" "48" "Z99.9" "1:DECEASED" "TCGA-XYZ" "yes" "Female".

Definition sample_columns_bad_age : Columns :=
  mkColumns "TCGA-2J-AAB6" "unknown" "C25.0" "0:LIVING" "TCGA-ABE" "No" "Male".

Definition sample_columns_no_secondary : Columns :=
  mkColumns "TCGA-2J-AAB7" "51" "C25.0" "0:LIVING" "" "No" "Male".

(** 63.5 as a binary64 number, and what is stored for 63.5 and for 48:
    [Decimal('63.5')] and [Decimal('48.0')]. *)
Definition sample_age : spec_float := S754_finite false 8936830510563328 (-47).
Definition sample_decimal : PyDecimal.t := PyDecimal.mk false 635 (-1).
Definition sample_decimal_48 : PyDecimal.t := PyDecimal.mk false 480 (-1).

(** A state in which the subject of the sample row is registered from
    an earlier row. *)
Definition sample_state_used : State :=
  mkState {[ "TCGA-2J-AAB1" := "earlier" ]} {[ "TCGA-2J-AAB1" := "earlier-2" ]}
          ∅ ∅ (Some "study-1") 0 [].

(** A line of 51 fields without a line end, and one of 20 fields. *)
Definition sample_line : string := PyStr.join tab sample_row.


(** * Properties *)

Section Facts.

Variable uuid4_stream : nat -> string.
Variable valid_string : string -> bool.
Variable valid_code : string -> bool.

Ltac run :=
  cbv [mbind M_bind mret M_ret raise uuid4 getitem float validated decimal_field
       set_patients_uuid set_research_subject_uuid set_condition_uuid
       set_procedure_uuid set_research_study_id get_research_study_id write
       registered_patient registered_subject registered_condition
       registered_procedure
       patients_uuid research_subject_uuid condition_uuid procedure_uuid
       research_study_id uuid4_calls written].

Lemma create_patient_run sid pid g l st :
  valid_string (PyStr.lower pid) = true ->
  valid_code (PyStr.lower g) = true ->
  create_patient uuid4_stream valid_string valid_code sid pid g l st =
  (Returns (Patient.mk [Identifier.mk PATIENT_ID_SYSTEM (PyStr.lower pid)]
              (PyStr.lower g) l (uuid4_stream (uuid4_calls st))),
   registered_patient uuid4_stream sid st).
Proof.
  intros Hid Hg. destruct st. unfold create_patient. run.
  rewrite Hid, Hg, lookup_insert_eq. reflexivity.
Qed.

Lemma create_patient_refused_id sid pid g l st :
  valid_string (PyStr.lower pid) = false ->
  create_patient uuid4_stream valid_string valid_code sid pid g l st =
  (Raises ValidationError, st).
Proof.
  intros Hid. unfold create_patient. run. rewrite Hid. reflexivity.
Qed.

Lemma create_patient_refused_gender sid pid g l st :
  valid_string (PyStr.lower pid) = true ->
  valid_code (PyStr.lower g) = false ->
  create_patient uuid4_stream valid_string valid_code sid pid g l st =
  (Raises ValidationError, registered_patient uuid4_stream sid st).
Proof.
  intros Hid Hg. destruct st. unfold create_patient. run.
  rewrite Hid, Hg. reflexivity.
Qed.

Lemma create_research_subject_run sid p rid st :
  patients_uuid st !! sid = Some p ->
  research_study_id st = Some rid ->
  valid_string sid = true ->
  create_research_subject uuid4_stream valid_string sid st =
  (Returns (ResearchSubject.mk "active" (Reference.mk ("Patient/" +:+ p))
              (Reference.mk ("ResearchStudy/" +:+ rid))
              [Identifier.mk STUDY_PATIENT_ID_SYSTEM sid]
              (uuid4_stream (uuid4_calls st))),
   registered_subject uuid4_stream sid st).
Proof.
  destruct st. unfold create_research_subject. run.
  intros -> -> ->. rewrite lookup_insert_eq. reflexivity.
Qed.

Lemma create_research_subject_unbound sid p st :
  patients_uuid st !! sid = Some p ->
  research_study_id st = None ->
  create_research_subject uuid4_stream valid_string sid st = (Raises NameError, st).
Proof.
  destruct st. unfold create_research_subject. run.
  intros -> ->. reflexivity.
Qed.

Lemma create_research_subject_refused sid p rid st :
  patients_uuid st !! sid = Some p ->
  research_study_id st = Some rid ->
  valid_string sid = false ->
  create_research_subject uuid4_stream valid_string sid st =
  (Raises ValidationError, registered_subject uuid4_stream sid st).
Proof.
  destruct st. unfold create_research_subject. run.
  intros -> -> ->. reflexivity.
Qed.

Lemma create_condition_run sid icd age x v p st :
  PyFloat.parse age = Some x ->
  PyDecimal.of_float x = Some v ->
  patients_uuid st !! sid = Some p ->
  create_condition uuid4_stream sid icd age st =
  (Returns (Condition.mk
              (CodeableConcept.mk
                 [Coding.mk "http://terminology.hl7.org/CodeSystem/condition-clinical"
                            "active" (Some "Active")])
              (Reference.mk ("Patient/" +:+ p)) (Age.mk v "a")
              (uuid4_stream (uuid4_calls st))
              (CodeableConcept.mk
                 [Coding.mk "http://fhir.de/CodeSystem/bfarm/icd-10-gm"
                            icd (get_label icd)])),
   registered_condition uuid4_stream sid st).
Proof.
  destruct st. unfold create_condition. run.
  intros -> -> ->. rewrite lookup_insert_eq. reflexivity.
Qed.

Lemma create_condition_raises sid icd age st :
  PyFloat.parse age = None ->
  create_condition uuid4_stream sid icd age st = (Raises ValueError, st).
Proof.
  unfold create_condition. run. intros ->. reflexivity.
Qed.

Lemma create_condition_refused sid icd age x st :
  PyFloat.parse age = Some x ->
  PyDecimal.of_float x = None ->
  create_condition uuid4_stream sid icd age st = (Raises ValidationError, st).
Proof.
  unfold create_condition. run. intros -> ->. reflexivity.
Qed.

Lemma create_procedure_run sid p st :
  patients_uuid st !! sid = Some p ->
  create_procedure uuid4_stream sid st =
  (Returns (Procedure.mk "completed" (Reference.mk ("Patient/" +:+ p))
              (uuid4_stream (uuid4_calls st))
              (CodeableConcept.mk
                 [Coding.mk "http://snomed.info/sct" "1287742003"
                            (Some "Radiotherapy (procedure)")])),
   registered_procedure uuid4_stream sid st).
Proof.
  destruct st. unfold create_procedure. run.
  intros ->. rewrite lookup_insert_eq. reflexivity.
Qed.

Lemma create_bundle_eq data_values st :
  create_bundle uuid4_stream valid_string valid_code data_values st =
  bundle_outcome uuid4_stream valid_string valid_code data_values st.
Proof.
  unfold create_bundle, bundle_outcome, columns, index.
  destruct (data_values !! 1%nat) as [a|]; [|reflexivity].
  destruct (data_values !! 3%nat) as [b|]; [|reflexivity].
  destruct (data_values !! 24%nat) as [c|]; [|reflexivity].
  destruct (data_values !! 35%nat) as [d|]; [|reflexivity].
  destruct (data_values !! 36%nat) as [e|]; [|reflexivity].
  destruct (data_values !! 46%nat) as [f|]; [|reflexivity].
  destruct (data_values !! 50%nat) as [g|]; [|reflexivity].
  cbn [mbind option_bind col_subject col_age col_icd col_living col_secondary col_radio col_gender].
  unfold patient_guard, subject_guard.
  cbn [col_subject col_age col_icd col_living col_secondary col_radio col_gender].
  cbv [mbind M_bind mret M_ret validated raise].
  destruct (valid_string ("identifier=" +:+ PATIENT_ID_SYSTEM +:+ "|" +:+ PyStr.lower e));
    [|reflexivity].
  destruct (valid_string ("identifier=" +:+ STUDY_PATIENT_ID_SYSTEM +:+ "|" +:+ a));
    [|reflexivity].
  destruct (valid_string (PyStr.lower e)) eqn:Hid.
  2:{ rewrite create_patient_refused_id by exact Hid. reflexivity. }
  destruct (valid_code (PyStr.lower g)) eqn:Hg.
  2:{ rewrite create_patient_refused_gender by assumption. reflexivity. }
  rewrite create_patient_run by assumption. cbn [negb andb].
  destruct (research_study_id st) as [rid|] eqn:Hrid.
  2:{ erewrite create_research_subject_unbound; [reflexivity| |exact Hrid].
      apply lookup_insert_eq. }
  destruct (valid_string a) eqn:Hsid.
  2:{ erewrite create_research_subject_refused;
        [reflexivity|apply lookup_insert_eq|exact Hrid|exact Hsid]. }
  erewrite create_research_subject_run;
    [|apply lookup_insert_eq|exact Hrid|exact Hsid].
  cbn [negb].
  destruct (PyFloat.parse b) as [x|] eqn:Hx.
  2:{ rewrite create_condition_raises by exact Hx. reflexivity. }
  destruct (PyDecimal.of_float x) as [v|] eqn:Hv.
  2:{ erewrite create_condition_refused by eassumption. reflexivity. }
  erewrite create_condition_run; [|exact Hx|exact Hv|apply lookup_insert_eq].
  unfold entries_of, patient_guard, subject_guard.
  cbn [col_subject col_age col_icd col_living col_secondary col_radio col_gender].
  destruct (radio_therapy_of f).
  - erewrite create_procedure_run by apply lookup_insert_eq.
    destruct st. run. rewrite !lookup_insert_eq. reflexivity.
  - destruct st. run. rewrite !lookup_insert_eq. reflexivity.
Qed.

Lemma age_decimal_Some field v :
  age_decimal field = Some v ->
  ∃ x, PyFloat.parse field = Some x ∧ PyDecimal.of_float x = Some v.
Proof.
  unfold age_decimal. destruct (PyFloat.parse field) as [x|]; [|discriminate].
  cbn. eauto.
Qed.

Lemma fields_valid_true c :
  fields_valid valid_string valid_code c = true ->
  valid_string (patient_guard c) = true ∧ valid_string (subject_guard c) = true ∧
  valid_string (PyStr.lower (col_secondary c)) = true ∧
  valid_code (PyStr.lower (col_gender c)) = true ∧
  valid_string (col_subject c) = true.
Proof.
  unfold fields_valid. intros H.
  repeat (apply andb_true_iff in H as [H ?]). auto.
Qed.

(** An accepted row under a bound study: the bundle and the state. *)
Lemma create_bundle_accepted data_values c v st rid :
  columns data_values = Some c ->
  fields_valid valid_string valid_code c = true ->
  age_decimal (col_age c) = Some v ->
  research_study_id st = Some rid ->
  let n := uuid4_calls st in
  create_bundle uuid4_stream valid_string valid_code data_values st =
  (Returns
     (Bundle.mk "transaction"
        (entries_of c v rid (uuid4_stream n) (uuid4_stream (S n))
           (uuid4_stream (S (S n))) (uuid4_stream (S (S (S n))))),
      col_subject c),
   let st3 :=
     registered_condition uuid4_stream (col_subject c)
       (registered_subject uuid4_stream (col_subject c)
          (registered_patient uuid4_stream (col_subject c) st)) in
   if radio_therapy_of (col_radio c)
   then registered_procedure uuid4_stream (col_subject c) st3 else st3).
Proof.
  intros Hc Hf Hd Hr. rewrite create_bundle_eq. unfold bundle_outcome.
  destruct (fields_valid_true c Hf) as (H1 & H2 & H3 & H4 & H5).
  destruct (age_decimal_Some _ _ Hd) as (x & Hx & Hv).
  rewrite Hc, H1, H2, H3, H4, Hr, H5, Hx, Hv. reflexivity.
Qed.

Lemma accepted_columns data_values :
  accepted valid_string valid_code data_values = true ->
  ∃ c v, columns data_values = Some c ∧
         fields_valid valid_string valid_code c = true ∧
         age_decimal (col_age c) = Some v.
Proof.
  unfold accepted. destruct (columns data_values) as [c|]; [|discriminate].
  intros H. apply andb_true_iff in H as [Hf H].
  apply bool_decide_eq_true in H as [v Hv]. eauto.
Qed.

Lemma columns_accepted data_values c v :
  columns data_values = Some c ->
  fields_valid valid_string valid_code c = true ->
  age_decimal (col_age c) = Some v ->
  accepted valid_string valid_code data_values = true.
Proof.
  intros Hc Hf Hv. unfold accepted. rewrite Hc, Hf, Hv. reflexivity.
Qed.

Lemma living_status_of_true s : living_status_of s = true ↔ s = "0:LIVING".
Proof.
  unfold living_status_of, PyStr.eq.
  destruct (String.eqb_spec s "0:LIVING"); split; congruence.
Qed.

Lemma radio_therapy_of_true s : radio_therapy_of s = true ↔ s = "Yes".
Proof.
  unfold radio_therapy_of, PyStr.eq.
  destruct (String.eqb_spec s "Yes"); split; congruence.
Qed.

Ltac bundle_of Hc Hv Hd Hr :=
  rewrite (create_bundle_accepted _ _ _ _ _ Hc Hv Hd Hr);
  eexists _, _; split; [reflexivity|].

(** C2: [create_bundle] returns, for a row it accepts, a bundle of type
    [transaction] whose entries are the Patient, the ResearchSubject and
    the Condition in this order, followed by the Procedure exactly when
    the treatment flag is set, and by nothing else. *)
Theorem create_bundle_entry_order data_values c v st rid :
  columns data_values = Some c ->
  faithful_row data_values = true ->
  fields_valid valid_string valid_code c = true ->
  age_decimal (col_age c) = Some v ->
  research_study_id st = Some rid ->
  ∃ b st',
    create_bundle uuid4_stream valid_string valid_code data_values st
      = (Returns (b, col_subject c), st') ∧
    Bundle.type b = "transaction" ∧
    kinds b = ([KPatient; KResearchSubject; KCondition]
               ++ if radio_therapy_of (col_radio c) then [KProcedure] else [])%list.
Proof.
  intros Hc _ Hv Hd Hr. bundle_of Hc Hv Hd Hr.
  split; [reflexivity|].
  unfold kinds, resources, entries_of; cbn [Bundle.entry].
  destruct (radio_therapy_of (col_radio c)); reflexivity.
Qed.

(** C5: the living-status flag is true exactly for the field [0:LIVING]
    and the treatment flag exactly for [Yes]; whatever the two fields
    hold, an accepted row yields a bundle, and the bundle has a
    Procedure entry exactly when the treatment field is [Yes]. *)
Theorem flags_exact_match data_values c v st rid :
  columns data_values = Some c ->
  faithful_row data_values = true ->
  fields_valid valid_string valid_code c = true ->
  age_decimal (col_age c) = Some v ->
  research_study_id st = Some rid ->
  (∀ s, living_status_of s = true ↔ s = "0:LIVING") ∧
  (∀ s, radio_therapy_of s = true ↔ s = "Yes") ∧
  ∃ b st',
    create_bundle uuid4_stream valid_string valid_code data_values st
      = (Returns (b, col_subject c), st') ∧
    (KProcedure ∈ kinds b ↔ col_radio c = "Yes").
Proof.
  intros Hc _ Hv Hd Hr.
  split; [exact living_status_of_true|]. split; [exact radio_therapy_of_true|].
  bundle_of Hc Hv Hd Hr.
  rewrite <- radio_therapy_of_true.
  unfold kinds, resources, entries_of; cbn [Bundle.entry].
  destruct (radio_therapy_of (col_radio c)); cbn.
  - split; [reflexivity|]. intros _.
    apply list_elem_of_In. cbn. auto.
  - split; [|discriminate]. intros H.
    repeat (apply elem_of_cons in H as [H|H]; [discriminate|]).
    by apply elem_of_nil in H.
Qed.

(** C10: the Patient of the bundle carries the living-status flag as its
    [deceasedBoolean]: the field is true exactly when the living-status
    column is [0:LIVING]. *)
Theorem deceased_boolean_is_living_flag data_values c v st rid :
  columns data_values = Some c ->
  faithful_row data_values = true ->
  fields_valid valid_string valid_code c = true ->
  age_decimal (col_age c) = Some v ->
  research_study_id st = Some rid ->
  ∃ b st',
    create_bundle uuid4_stream valid_string valid_code data_values st
      = (Returns (b, col_subject c), st') ∧
    ∃ pat, head (resources b) = Some (RPatient pat) ∧
           Patient.deceasedBoolean pat = living_status_of (col_living c) ∧
           (Patient.deceasedBoolean pat = true ↔ col_living c = "0:LIVING").
Proof.
  intros Hc _ Hv Hd Hr. bundle_of Hc Hv Hd Hr.
  eexists. split; [reflexivity|]. cbn [Patient.deceasedBoolean].
  split; [reflexivity|]. apply living_status_of_true.
Qed.

(** C3: the Patient entry carries the guard made of the patient system
    and the lowercased secondary id, the ResearchSubject entry the guard
    made of the study-patient system and the subject id as it is; the
    Condition and Procedure entries carry a plain POST.  The guard of
    the study is held by [research_study_request], which is the request
    of no entry. *)
Theorem conditional_create_guards data_values c v st rid :
  columns data_values = Some c ->
  faithful_row data_values = true ->
  fields_valid valid_string valid_code c = true ->
  age_decimal (col_age c) = Some v ->
  research_study_id st = Some rid ->
  ∃ b st',
    create_bundle uuid4_stream valid_string valid_code data_values st
      = (Returns (b, col_subject c), st') ∧
    requests b =
      ([BundleEntryRequest.mk "Patient" "POST"
          (Some ("identifier=" +:+ PATIENT_ID_SYSTEM +:+ "|"
                 +:+ PyStr.lower (col_secondary c)));
        BundleEntryRequest.mk "ResearchSubject" "POST"
          (Some ("identifier=" +:+ STUDY_PATIENT_ID_SYSTEM +:+ "|"
                 +:+ col_subject c));
        BundleEntryRequest.mk "Condition" "POST" None]
       ++ if radio_therapy_of (col_radio c)
          then [BundleEntryRequest.mk "Procedure" "POST" None] else [])%list ∧
    (col_secondary c = "TCGA-ABC" ->
     (requests b !! 0%nat) ≫= BundleEntryRequest.ifNoneExist =
       Some "identifier=https://www.gmds.de/pk-nachwuchs/patient|tcga-abc") ∧
    BundleEntryRequest.ifNoneExist research_study_request =
      Some "identifier=https://www.cbioportal.org/study|paad_tcga_pan_can_atlas_2018" ∧
    Forall (fun r => BundleEntryRequest.url r ≠ "ResearchStudy") (requests b).
Proof.
  intros Hc _ Hv Hd Hr. bundle_of Hc Hv Hd Hr.
  unfold requests, entries_of, patient_guard, subject_guard; cbn [Bundle.entry].
  split; [|split; [|split]].
  - destruct (radio_therapy_of (col_radio c)); reflexivity.
  - intros ->. reflexivity.
  - reflexivity.
  - destruct (radio_therapy_of (col_radio c)); cbn;
      repeat (constructor; [cbn; discriminate|]); constructor.
Qed.

(** C1: every reference to the Patient (of the ResearchSubject, of the
    Condition and, when present, of the Procedure) is the [fullUrl] of
    the first entry of the same bundle, which is the Patient entry; the
    one reference to the study is [ResearchStudy/] followed by the
    global [research_study_id], and no entry of the bundle has that
    [fullUrl]. *)
Theorem references_within_bundle data_values c v st rid :
  columns data_values = Some c ->
  faithful_row data_values = true ->
  fields_valid valid_string valid_code c = true ->
  age_decimal (col_age c) = Some v ->
  research_study_id st = Some rid ->
  ∃ b st',
    create_bundle uuid4_stream valid_string valid_code data_values st
      = (Returns (b, col_subject c), st') ∧
    (∃ e, head (Bundle.entry b) = Some e ∧
          kind_of (BundleEntry.resource e) = KPatient ∧
          BundleEntry.fullUrl e = "Patient/" +:+ resource_id (BundleEntry.resource e) ∧
          ∀ u, u ∈ resources b ≫= patient_references -> u = BundleEntry.fullUrl e) ∧
    resources b ≫= study_references = ["ResearchStudy/" +:+ rid] ∧
    "ResearchStudy/" +:+ rid ∉ full_urls b.
Proof.
  intros Hc _ Hv Hd Hr. bundle_of Hc Hv Hd Hr.
  unfold resources, full_urls, entries_of; cbn [Bundle.entry].
  split; [|split].
  - eexists. split; [reflexivity|]. split; [reflexivity|]. split; [reflexivity|].
    cbn [BundleEntry.fullUrl].
    destruct (radio_therapy_of (col_radio c)); cbn; intros u Hu;
      repeat (apply elem_of_cons in Hu as [Hu|Hu]; [exact Hu|]);
      by apply elem_of_nil in Hu.
  - destruct (radio_therapy_of (col_radio c)); reflexivity.
  - destruct (radio_therapy_of (col_radio c)); cbn; intros Hu;
      repeat (apply elem_of_cons in Hu as [Hu|Hu];
              [vm_compute in Hu; discriminate|]);
      by apply elem_of_nil in Hu.
Qed.

Lemma one_decimal_ages_stored :
  forallb (fun n => forallb (one_decimal_stored n) (seq 0 10)) (seq 0 150) = true.
Proof. vm_compute. reflexivity. Qed.

Lemma one_decimal_stored_true n j :
  (n < 150)%nat -> (j < 10)%nat -> one_decimal_stored n j = true.
Proof.
  intros Hn Hj. pose proof one_decimal_ages_stored as H.
  rewrite forallb_forall in H. specialize (H n).
  rewrite forallb_forall in H. apply H; apply in_seq; lia.
Qed.

(** C4: the Condition of the bundle carries the onset age with the unit
    [a]; its value is the decimal the library makes of the number
    [float] reads.  For the field [63.5] it is exactly 63.5, and for an
    age below 150 written with one decimal it is exactly the number
    written. *)
Theorem onset_age_value_and_unit data_values c v st rid :
  columns data_values = Some c ->
  faithful_row data_values = true ->
  fields_valid valid_string valid_code c = true ->
  age_decimal (col_age c) = Some v ->
  research_study_id st = Some rid ->
  ∃ b st',
    create_bundle uuid4_stream valid_string valid_code data_values st
      = (Returns (b, col_subject c), st') ∧
    ∃ cond, resources b !! 2%nat = Some (RCondition cond) ∧
            Condition.onsetAge cond = Age.mk v "a" ∧
            (col_age c = "63.5" ->
             v = PyDecimal.mk false 635 (-1) ∧
             Qeq (PyDecimal.to_Q v) (Qmake 127 2)) ∧
            (∀ n j, (n < 150)%nat -> (j < 10)%nat ->
               col_age c = pretty n +:+ "." +:+ pretty j ->
               Qeq (PyDecimal.to_Q v) (Qmake (Z.of_nat (10 * n + j)) 10)).
Proof.
  intros Hc _ Hv Hd Hr. bundle_of Hc Hv Hd Hr.
  eexists. split; [reflexivity|]. split; [reflexivity|]. split.
  - intros Hage. rewrite Hage in Hd. vm_compute in Hd.
    injection Hd as <-. split; reflexivity.
  - intros n j Hn Hj Hage. rewrite Hage in Hd.
    pose proof (one_decimal_stored_true n j Hn Hj) as H.
    unfold one_decimal_stored in H. rewrite Hd in H.
    apply Qeq_bool_iff, H.
Qed.

Lemma get_label_unknown s : s ∉ known_codes -> get_label s = None.
Proof.
  intros Hs. unfold get_label, PyStr.eq.
  repeat match goal with
         | |- context [String.eqb s ?k] =>
             destruct (String.eqb_spec s k) as [->|_];
             [exfalso; apply Hs; apply list_elem_of_In; cbn; tauto|]
         end.
  reflexivity.
Qed.

(** C6: [get_label] gives each of the eight known codes its label,
    which is not empty, and gives [None] for every other string; a row
    with such a code still yields its bundle, and the coding of the
    Condition then has no display. *)
Theorem get_label_table data_values c v st rid :
  columns data_values = Some c ->
  faithful_row data_values = true ->
  fields_valid valid_string valid_code c = true ->
  age_decimal (col_age c) = Some v ->
  research_study_id st = Some rid ->
  get_label "C25.0" = Some "Bösartige Neubildung: Pankreaskopf" ∧
  (∀ k, k ∈ known_codes -> ∃ l, get_label k = Some l ∧ l ≠ "") ∧
  length known_codes = 8%nat ∧ NoDup known_codes ∧
  (∀ s, s ∉ known_codes -> get_label s = None) ∧
  ∃ b st',
    create_bundle uuid4_stream valid_string valid_code data_values st
      = (Returns (b, col_subject c), st') ∧
    ∃ cond, resources b !! 2%nat = Some (RCondition cond) ∧
            (col_icd c ∉ known_codes ->
             CodeableConcept.coding (Condition.code cond) =
               [Coding.mk "http://fhir.de/CodeSystem/bfarm/icd-10-gm" (col_icd c) None]).
Proof.
  intros Hc _ Hv Hd Hr.
  split; [reflexivity|]. split; [|split; [reflexivity|split; [|split]]].
  - intros k Hk. unfold known_codes in Hk.
    repeat (apply elem_of_cons in Hk as [->|Hk];
            [eexists; split; [reflexivity|discriminate]|]).
    by apply elem_of_nil in Hk.
  - apply (bool_decide_unpack _). vm_compute. exact I.
  - exact get_label_unknown.
  - bundle_of Hc Hv Hd Hr. eexists. split; [reflexivity|].
    intros Hk. cbn. rewrite (get_label_unknown _ Hk). reflexivity.
Qed.

(** *** The loop of the main block *)

Lemma process_line_accepted line c v st rid :
  columns (PyStr.split "009" line) = Some c ->
  fields_valid valid_string valid_code c = true ->
  age_decimal (col_age c) = Some v ->
  research_study_id st = Some rid ->
  ∃ b st' k,
    process_line uuid4_stream valid_string valid_code line st = (Returns tt, st') ∧
    written st' = (written st ++ [BundleFile (col_subject c +:+ ".json") b])%list ∧
    research_study_id st' = Some rid ∧
    uuid4_calls st' = (uuid4_calls st + k)%nat ∧
    bundle_ids b = uuid4_stream <$> seq (uuid4_calls st) k ∧
    resources b ≫= study_references = ["ResearchStudy/" +:+ rid].
Proof.
  intros Hc Hv Hd Hr. unfold process_line. cbv [mbind M_bind].
  rewrite (create_bundle_accepted _ _ _ _ _ Hc Hv Hd Hr).
  unfold bundle_ids, resources, entries_of; cbn [Bundle.entry].
  destruct st as [P S C R i n w]. cbn in Hr. subst i.
  destruct (radio_therapy_of (col_radio c)).
  - eexists _, _, 4%nat. run. cbn. repeat split; f_equal; lia.
  - eexists _, _, 3%nat. run. cbn. repeat split; f_equal; lia.
Qed.

Lemma create_bundle_rejected data_values st :
  accepted valid_string valid_code data_values = false ->
  ∃ e st',
    create_bundle uuid4_stream valid_string valid_code data_values st
      = (Raises e, st') ∧
    written st' = written st.
Proof.
  unfold accepted, fields_valid, age_decimal.
  rewrite create_bundle_eq. unfold bundle_outcome.
  destruct (columns _) as [c|]; [|eauto].
  destruct (valid_string (patient_guard c)); [|eauto].
  destruct (valid_string (subject_guard c)); [|eauto].
  destruct (valid_string (PyStr.lower (col_secondary c))); [|eauto].
  cbn [andb negb].
  destruct (valid_code (PyStr.lower (col_gender c))); [|destruct st; eauto].
  cbn [andb negb].
  destruct (research_study_id st); [|destruct st; eauto].
  destruct (valid_string (col_subject c)); [|destruct st; eauto].
  cbn [andb negb].
  destruct (PyFloat.parse (col_age c)) as [x|]; [|destruct st; eauto].
  cbn [mbind option_bind].
  destruct (PyDecimal.of_float x) as [v|]; [|destruct st; eauto].
  intros H. apply bool_decide_eq_false in H. destruct H. eauto.
Qed.

Lemma process_line_rejected line st :
  accepted valid_string valid_code (PyStr.split "009" line) = false ->
  ∃ e st',
    process_line uuid4_stream valid_string valid_code line st = (Raises e, st') ∧
    written st' = written st.
Proof.
  intros Hacc. unfold process_line. cbv [mbind M_bind].
  destruct (create_bundle_rejected _ st Hacc) as (e & st' & -> & Hw). eauto.
Qed.

(** The loop writes one bundle for each line up to the first line whose
    row is not accepted, where it raises; the identifiers of what it
    writes are the values drawn from [uuid4_stream], in order. *)
Lemma for_each_process_line rid lines : ∀ st,
  research_study_id st = Some rid ->
  ∃ res st' finished outs k,
    for_each lines (process_line uuid4_stream valid_string valid_code) st
      = (res, st') ∧
    written st' = (written st ++ outs)%list ∧
    Forall2 (written_for valid_string valid_code rid) finished outs ∧
    outs ≫= output_ids = uuid4_stream <$> seq (uuid4_calls st) k ∧
    ((res = Returns tt ∧ finished = lines) ∨
     (∃ e bad rest, res = Raises e ∧ lines = (finished ++ bad :: rest)%list ∧
                    accepted valid_string valid_code (PyStr.split "009" bad) = false)).
Proof.
  induction lines as [|line lines IH]; intros st Hr.
  - exists (Returns tt), st, [], [], 0%nat. cbn.
    rewrite app_nil_r. repeat split; auto.
  - cbn [for_each]. cbv [mbind M_bind].
    destruct (accepted valid_string valid_code (PyStr.split "009" line)) eqn:Hacc.
    + destruct (accepted_columns _ Hacc) as (c & v & Hc & Hv & Hd).
      destruct (process_line_accepted line c v st rid Hc Hv Hd Hr)
        as (b & st1 & k1 & Hrun & Hw & Hr1 & Hn & Hids & Hstudy).
      rewrite Hrun.
      destruct (IH st1 Hr1) as (res & st' & fin & outs & k & Hrest & Hw' & HF & Hids' & Hend).
      exists res, st', (line :: fin), (BundleFile (col_subject c +:+ ".json") b :: outs), (k1 + k)%nat.
      split; [exact Hrest|]. split; [rewrite Hw', Hw, <- app_assoc; reflexivity|].
      split; [constructor; [split; [exact Hacc|eauto]|exact HF]|].
      split.
      { rewrite bind_cons. cbn [output_ids]. rewrite Hids', Hids, Hn.
        rewrite seq_app, fmap_app. reflexivity. }
      destruct Hend as [[-> ->]|(e & bad & rest & -> & -> & Hbad)]; [left; auto|].
      right. exists e, bad, rest. auto.
    + destruct (process_line_rejected line st Hacc) as (e & st' & Hrun & Hw).
      rewrite Hrun. exists (Raises e), st', [], [], 0%nat.
      rewrite Hw, app_nil_r. repeat split; auto.
      right. exists e, line, lines. auto.
Qed.

Lemma main_study_mode lines arg :
  falsy arg = true ->
  main uuid4_stream valid_string valid_code lines arg initial =
  (Raises (SystemExit 0),
   mkState ∅ ∅ ∅ ∅ (Some (uuid4_stream 0)) 1
     [StudyFile "study.json"
        (ResearchStudy.mk "active"
           [Identifier.mk STUDY_ID_SYSTEM "paad_tcga_pan_can_atlas_2018"]
           "tcga_pancreatic_adenocarcinoma"
           "Pancreatic Adenocarcinoma (TCGA, PanCancer Atlas)" "1.0.0"
           (uuid4_stream 0)
           [CodeableConcept.mk
              [Coding.mk "http://hl7.org/fhir/research-study-status"
                 "completed" (Some "Completed")]])]).
Proof.
  intros Hf. unfold main. rewrite Hf. reflexivity.
Qed.

Lemma main_bundle_mode lines arg :
  falsy arg = false ->
  ∃ rid, arg = Some rid ∧ rid ≠ "" ∧
    main uuid4_stream valid_string valid_code lines arg initial =
    for_each (tail lines) (process_line uuid4_stream valid_string valid_code)
      (mkState ∅ ∅ ∅ ∅ (Some rid) 0 []).
Proof.
  destruct arg as [[|a r]|]; try discriminate. intros _.
  eexists. split; [reflexivity|]. split; [discriminate|]. reflexivity.
Qed.


Lemma written_for_accepted rid finished outs :
  Forall2 (written_for valid_string valid_code rid) finished outs ->
  Forall (fun line => accepted valid_string valid_code (PyStr.split "009" line) = true)
         finished.
Proof.
  induction 1 as [|line o ls os [Hacc _] _ IH]; constructor; auto.
Qed.


Lemma NoDup_bind_apart {A B} (f : A -> list B) (l : list A) :
  NoDup (l ≫= f) ->
  ∀ i j a b, i ≠ j -> l !! i = Some a -> l !! j = Some b ->
             ∀ x, x ∈ f a -> x ∉ f b.
Proof.
  induction l as [|a0 l IH]; intros Hnd i j a b Hij Hi Hj x Ha Hb.
  - rewrite lookup_nil in Hi. discriminate.
  - rewrite bind_cons in Hnd. apply NoDup_app in Hnd as (_ & Hapart & Hrest).
    destruct i as [|i], j as [|j]; cbn in Hi, Hj.
    + congruence.
    + injection Hi as <-. apply (Hapart x Ha).
      apply list_elem_of_bind. exists b. split; [exact Hb|].
      eapply list_elem_of_lookup_2, Hj.
    + injection Hj as <-. apply (Hapart x Hb).
      apply list_elem_of_bind. exists a. split; [exact Ha|].
      eapply list_elem_of_lookup_2, Hi.
    + eapply (IH Hrest i j a b); eauto.
Qed.

(** C9: when the values of [uuid.uuid4()] are pairwise distinct, all
    identifiers of all resources a run writes are pairwise distinct:
    two bundles of one run, written for whatever subject keys, share no
    identifier of a Patient, ResearchSubject, Condition or Procedure. *)
Theorem identifiers_fresh lines arg :
  Inj (=) (=) uuid4_stream ->
  let outs :=
    written (snd (main uuid4_stream valid_string valid_code lines arg initial)) in
  NoDup (outs ≫= output_ids) ∧
  (∀ i j oi oj,
     i ≠ j -> outs !! i = Some oi -> outs !! j = Some oj ->
     ∀ x, x ∈ output_ids oi -> x ∉ output_ids oj) ∧
  (∀ i j ni nj bi bj pi pj,
     i ≠ j ->
     outs !! i = Some (BundleFile ni bi) -> outs !! j = Some (BundleFile nj bj) ->
     head (resources bi) = Some (RPatient pi) ->
     head (resources bj) = Some (RPatient pj) ->
     Patient.id pi ≠ Patient.id pj).
Proof.
  intros Hinj outs.
  assert (Hnd : NoDup (outs ≫= output_ids)).
  { subst outs. destruct (falsy arg) eqn:Hf.
    - rewrite (main_study_mode _ _ Hf). cbn.
      apply NoDup_singleton.
    - destruct (main_bundle_mode lines arg Hf) as (rid & -> & Hne & ->).
      destruct (for_each_process_line rid (tail lines)
                  (mkState ∅ ∅ ∅ ∅ (Some rid) 0 []) eq_refl)
        as (res & st' & fin & os & k & -> & Hw & _ & Hids & _).
      cbn in Hw. cbn [snd]. rewrite Hw, Hids.
      apply (NoDup_fmap_2 _), NoDup_seq. }
  split; [exact Hnd|]. split.
  - apply NoDup_bind_apart, Hnd.
  - intros i j ni nj bi bj pi pj Hij Hi Hj Hpi Hpj Heq.
    apply (NoDup_bind_apart _ _ Hnd i j _ _ Hij Hi Hj (Patient.id pi)).
    + cbn. unfold bundle_ids. destruct (resources bi); [discriminate|].
      injection Hpi as ->. cbn. apply list_elem_of_In. cbn. auto.
    + rewrite Heq. cbn. unfold bundle_ids. destruct (resources bj); [discriminate|].
      injection Hpj as ->. cbn. apply list_elem_of_In. cbn. auto.
Qed.

(** *** The parser reads decimal numbers only *)

Lemma append_nil_l (s : string) : (EmptyString ++ s)%string = s.
Proof. reflexivity. Qed.

Lemma append_cons c (r s : string) :
  (String c r ++ s)%string = String c (r ++ s)%string.
Proof. reflexivity. Qed.

Lemma append_nil_r (s : string) : (s ++ EmptyString)%string = s.
Proof. induction s as [|c r IH]; [reflexivity|]. rewrite append_cons, IH. reflexivity. Qed.

Lemma append_assoc (a b c : string) :
  ((a ++ b) ++ c)%string = (a ++ b ++ c)%string.
Proof.
  induction a as [|x r IH]; [reflexivity|].
  rewrite !append_cons, IH. reflexivity.
Qed.

Lemma span_digits_spec u d r :
  PyFloat.span_digits u = (d, r) ->
  u = (d ++ r)%string ∧ DecimalSyntax.digits d.
Proof.
  revert d r. induction u as [|c u IH]; intros d r; cbn.
  - intros [= <- <-]. split; reflexivity.
  - destruct (PyStr.is_digit c) eqn:Hc.
    + destruct (PyFloat.span_digits u) as [d' t]. intros [= <- <-].
      destruct (IH d' t eq_refl) as [-> Hd]. split; [reflexivity|].
      unfold DecimalSyntax.digits. cbn. rewrite Hc. exact Hd.
    + intros [= <- <-]. split; reflexivity.
Qed.

Lemma drop_underscores_spec s : ∀ p t,
  PyFloat.drop_underscores p s = Some t ->
  (Ascii.eqb p "_" = false -> DecimalSyntax.underscored p s t) ∧
  (Ascii.eqb p "_" = true ->
   ∃ d s' t', s = String d s' ∧ t = String d t' ∧ PyStr.is_digit d = true ∧
              DecimalSyntax.underscored d s' t').
Proof.
  induction s as [|c r IH]; intros p t; cbn [PyFloat.drop_underscores].
  - destruct (Ascii.eqb p "_"); [discriminate|]. intros [= <-].
    split; [intros _; constructor|discriminate].
  - destruct (Ascii.eqb_spec c "_") as [->|Hc].
    + destruct (PyStr.is_digit p) eqn:Hp; [|discriminate]. intros H.
      destruct (IH _ _ H) as [_ Hus].
      destruct (Hus eq_refl) as (d & s' & t' & -> & -> & Hd & Hrec).
      split.
      * intros _. constructor; assumption.
      * intros Hpu. apply Ascii.eqb_eq in Hpu. subst p. discriminate Hp.
    + destruct (Ascii.eqb p "_") eqn:Hpu; cbn [andb].
      * destruct (PyStr.is_digit c) eqn:Hd; cbn [negb]; [|discriminate].
        destruct (PyFloat.drop_underscores c r) as [t0|] eqn:Hr; [|discriminate].
        intros [= <-]. split; [discriminate|]. intros _.
        destruct (IH _ _ Hr) as [Hrec _].
        exists c, r, t0. repeat split; auto.
        apply Hrec. by apply Ascii.eqb_neq.
      * destruct (PyFloat.drop_underscores c r) as [t0|] eqn:Hr; [|discriminate].
        intros [= <-]. split; [|discriminate]. intros _.
        destruct (IH _ _ Hr) as [Hrec _].
        constructor; [exact Hc|]. apply Hrec. by apply Ascii.eqb_neq.
Qed.

Lemma lstrip_spec t :
  ∃ a, t = (a ++ PyFloat.lstrip t)%string ∧ DecimalSyntax.spaces a.
Proof.
  induction t as [|c r (a & Ha & Hs)]; [exists EmptyString; split; reflexivity|].
  cbn. destruct (PyStr.is_space c) eqn:Hc.
  - exists (String c a). rewrite append_cons, <- Ha. split; [reflexivity|].
    unfold DecimalSyntax.spaces. cbn. rewrite Hc. exact Hs.
  - exists EmptyString. split; reflexivity.
Qed.

Lemma rstrip_spec t :
  ∃ b, t = (PyFloat.rstrip t ++ b)%string ∧ DecimalSyntax.spaces b.
Proof.
  induction t as [|c r (b & Hb & Hs)]; [exists EmptyString; split; reflexivity|].
  cbn. destruct (PyFloat.rstrip r) as [|x y] eqn:Hr.
  - rewrite append_nil_l in Hb. subst b.
    destruct (PyStr.is_space c) eqn:Hc.
    + exists (String c r). split; [reflexivity|].
      unfold DecimalSyntax.spaces. cbn. rewrite Hc. exact Hs.
    + exists r. split; [reflexivity|exact Hs].
  - exists b. rewrite append_cons, <- Hb. split; [reflexivity|exact Hs].
Qed.

Lemma take_sign_spec u neg body :
  PyFloat.take_sign u = (neg, body) ->
  ∃ sg, u = (sg ++ body)%string ∧ DecimalSyntax.sign sg.
Proof.
  unfold DecimalSyntax.sign. destruct u as [|c r].
  - intros [= <- <-]. exists EmptyString. auto.
  - destruct c as [[] [] [] [] [] [] [] []]; cbn; intros [= <- <-];
      first [ exists EmptyString; split; [reflexivity|auto]
            | exists "+"; split; [reflexivity|auto]
            | exists "-"; split; [reflexivity|auto] ].
Qed.

Lemma take_exponent_spec u ex :
  PyFloat.take_exponent u = (ex, EmptyString) -> DecimalSyntax.exponent u.
Proof.
  unfold PyFloat.take_exponent, DecimalSyntax.exponent.
  destruct u as [|c r]; [auto|].
  destruct (Ascii.eqb c "e" || Ascii.eqb c "E") eqn:He; [|discriminate].
  destruct (PyFloat.take_sign r) as [neg r1] eqn:Hsg.
  destruct (PyFloat.span_digits r1) as [ds r2] eqn:Hds.
  destruct ds as [|d ds]; [discriminate|]. intros [= _ ->].
  destruct (take_sign_spec _ _ _ Hsg) as (sg & -> & Hsign).
  destruct (span_digits_spec _ _ _ Hds) as [-> Hdig].
  rewrite append_nil_r. right.
  exists (String c EmptyString), sg, (String d ds).
  split; [reflexivity|]. split.
  - apply orb_true_iff in He as [He|He]; apply Ascii.eqb_eq in He; subst c; auto.
  - split; [exact Hsign|]. split; [exact Hdig|discriminate].
Qed.

Lemma dot_or_not (r1 : string) :
  (∃ r, r1 = String "." r) ∨
  (∀ (A : Type) (f : string -> A) (g : A),
     match r1 with String "." r => f r | _ => g end = g).
Proof.
  destruct r1 as [|c r]; [right; reflexivity|].
  destruct c as [[] [] [] [] [] [] [] []];
    first [ left; eexists; reflexivity | right; reflexivity ].
Qed.

Lemma parse_decimal_spec body m e :
  PyFloat.parse_decimal body = Some (m, e) ->
  ∃ n ex, body = (n ++ ex)%string ∧ DecimalSyntax.number n ∧
          DecimalSyntax.exponent ex.
Proof.
  unfold PyFloat.parse_decimal.
  destruct (PyFloat.span_digits body) as [ip r1] eqn:Hip.
  destruct (span_digits_spec _ _ _ Hip) as [-> Hdi].
  destruct (dot_or_not r1) as [[r ->]|Hnodot].
  - destruct (PyFloat.span_digits r) as [fp r2] eqn:Hfp.
    destruct (span_digits_spec _ _ _ Hfp) as [-> Hdf].
    intros H.
    assert (Hne : ip ≠ "" ∨ fp ≠ "").
    { destruct ip; [|left; discriminate]. destruct fp; [discriminate|].
      right; discriminate. }
    assert (Hex : DecimalSyntax.exponent r2).
    { destruct ip, fp; try discriminate;
        destruct (PyFloat.take_exponent r2) as [x r3] eqn:Hx;
        destruct r3; try discriminate; eapply take_exponent_spec, Hx. }
    exists (ip ++ "." ++ fp)%string, r2. split.
    + rewrite !append_assoc. reflexivity.
    + split; [|exact Hex]. exists ip, ".", fp. repeat split; auto.
  - rewrite Hnodot.
    destruct ip as [|i ip]; [discriminate|].
    destruct (PyFloat.take_exponent r1) as [x r3] eqn:Hx.
    destruct r3; [|discriminate]. intros _.
    exists (String i ip), r1. split; [reflexivity|]. split.
    + exists (String i ip), "", "". rewrite append_nil_r.
      split; [reflexivity|]. split; [exact Hdi|]. split; [reflexivity|].
      left. repeat split. discriminate.
    + eapply take_exponent_spec, Hx.
Qed.

(** What [PyFloat.parse] reads through its first branch is a decimal
    number of the grammar. *)
Lemma decimal_numeral_syntax s :
  PyFloat.is_decimal_numeral s = true -> DecimalSyntax.decimal_number s.
Proof.
  unfold PyFloat.is_decimal_numeral.
  destruct (PyFloat.drop_underscores "000" s) as [s1|] eqn:Hs1; [|discriminate].
  destruct (PyFloat.take_sign _) as [neg body] eqn:Hsg.
  intros H. apply bool_decide_eq_true in H as [[m e] Hbody].
  destruct (drop_underscores_spec _ _ _ Hs1) as [Hus _].
  exists s1. split; [exact (Hus eq_refl)|].
  destruct (lstrip_spec s1) as (a & Ha & Hsa).
  destruct (rstrip_spec (PyFloat.lstrip s1)) as (b & Hb & Hsb).
  destruct (take_sign_spec _ _ _ Hsg) as (sg & Hu & Hsign).
  destruct (parse_decimal_spec _ _ _ Hbody) as (n & ex & -> & Hn & Hex).
  exists a, sg, n, ex, b. split.
  - rewrite Ha at 1. rewrite Hb at 1. rewrite Hu. rewrite !append_assoc. reflexivity.
  - auto.
Qed.

Lemma parse_finite_numeral s x :
  PyFloat.parse s = Some x -> PyFloat.is_finite x = true ->
  PyFloat.is_decimal_numeral s = true.
Proof.
  unfold PyFloat.parse, PyFloat.is_decimal_numeral.
  destruct (PyFloat.drop_underscores "000" s) as [s1|]; [|discriminate].
  cbn [mbind option_bind].
  destruct (PyFloat.take_sign _) as [neg body].
  destruct (PyFloat.parse_decimal body) as [[m e]|].
  - intros _ _. apply bool_decide_eq_true. eauto.
  - unfold PyFloat.parse_inf_or_nan.
    destruct (_ || _); [intros [= <-]; discriminate|].
    destruct (PyStr.eq _ _); [intros [= <-]; discriminate|discriminate].
Qed.

Lemma of_float_finite x v :
  PyDecimal.of_float x = Some v -> PyFloat.is_finite x = true.
Proof. destruct x; cbn; congruence. Qed.

(** An age that is no decimal number of the grammar is stored as no
    decimal: [float] or the decimal field refuses it. *)
Lemma not_decimal_number_unread age :
  ¬ DecimalSyntax.decimal_number age -> age_decimal age = None.
Proof.
  intros Hno. destruct (age_decimal age) as [v|] eqn:Hv; [|reflexivity].
  unfold age_decimal in Hv.
  destruct (PyFloat.parse age) as [x|] eqn:Hx; [|discriminate]. cbn in Hv.
  exfalso. apply Hno, decimal_numeral_syntax.
  eapply parse_finite_numeral; [exact Hx|]. eapply of_float_finite, Hv.
Qed.

Lemma no_digit_app a b : no_digit (a ++ b) = no_digit a && no_digit b.
Proof.
  induction a as [|c r IH]; [reflexivity|].
  rewrite append_cons. unfold no_digit in *. cbn. rewrite IH.
  rewrite andb_assoc. reflexivity.
Qed.

Lemma digits_have_digit d :
  DecimalSyntax.digits d -> d ≠ "" -> no_digit d = false.
Proof.
  unfold DecimalSyntax.digits, no_digit. destruct d as [|c r]; [done|].
  cbn. intros H _. apply andb_true_iff in H as [-> _]. reflexivity.
Qed.

(** A decimal number of the grammar holds a digit. *)
Lemma decimal_number_has_digit s :
  DecimalSyntax.decimal_number s -> no_digit s = false.
Proof.
  intros (t & Hus & a & sg & n & ex & b & -> & _ & _ & Hn & _ & _).
  assert (Ht : no_digit (a ++ sg ++ n ++ ex ++ b) = false).
  { rewrite !no_digit_app.
    destruct Hn as (ip & dot & fp & -> & Hi & Hf & Hne).
    rewrite !no_digit_app.
    assert (Hd : no_digit ip = false ∨ no_digit fp = false).
    { destruct Hne as [(_ & _ & Hip)|[_ [Hip|Hfp]]];
        [left|left|right]; by apply digits_have_digit. }
    destruct Hd as [->| ->]; rewrite ?andb_false_r; reflexivity. }
  revert Hus Ht. generalize (a ++ sg ++ n ++ ex ++ b)%string, "000"%char.
  clear. intros t p Hus Ht.
  induction Hus as [p|p c s t Hc Hus IH|p d s t Hp Hd Hus IH].
  - exact Ht.
  - unfold no_digit in *. cbn in *.
    destruct (PyStr.is_digit c); [reflexivity|]. cbn in *. auto.
  - unfold no_digit. cbn. rewrite Hd. reflexivity.
Qed.

Lemma columns_age data_values c :
  columns data_values = Some c -> data_values !! 3%nat = Some (col_age c).
Proof.
  unfold columns. intros H.
  repeat match type of H with
         | context [?l !! ?i] => destruct (l !! i); [|discriminate]
         end.
  cbn in H. injection H as <-. reflexivity.
Qed.

Lemma unreadable_age_not_accepted data_values age :
  age_decimal age = None -> data_values !! 3%nat = Some age ->
  accepted valid_string valid_code data_values = false.
Proof.
  intros Hp Hl. unfold accepted.
  destruct (columns data_values) as [c|] eqn:Hc; [|reflexivity].
  apply columns_age in Hc. rewrite Hl in Hc. injection Hc as <-.
  rewrite Hp. apply andb_false_iff. right.
  apply bool_decide_eq_false. intros [? ?]. discriminate.
Qed.

(** C8: an onset age that is no decimal number is fatal.  For an ASCII
    field outside the grammar of decimal numbers, [create_condition]
    raises before it touches the state, a [ValueError] of [float] or the
    [ValidationError] of the decimal field; [create_bundle] raises for
    every row with that age and writes nothing; and a run with such a
    line raises, having written no file for that line or for a later
    one.  No age is put in its place. *)
Theorem unreadable_age_is_fatal age :
  PyStr.is_ascii age = true ->
  ¬ DecimalSyntax.decimal_number age ->
  (∀ sid icd st,
     ∃ e, (e = ValueError ∨ e = ValidationError) ∧
          create_condition uuid4_stream sid icd age st = (Raises e, st)) ∧
  (∀ data_values st,
     data_values !! 3%nat = Some age ->
     ∃ e st', create_bundle uuid4_stream valid_string valid_code data_values st
                = (Raises e, st') ∧
              written st' = written st) ∧
  (∀ lines rid before line after,
     rid ≠ "" ->
     tail lines = (before ++ line :: after)%list ->
     PyStr.split "009" line !! 3%nat = Some age ->
     ∃ e st', main uuid4_stream valid_string valid_code lines (Some rid) initial
                = (Raises e, st') ∧
              (length (written st') <= length before)%nat).
Proof.
  intros _ Hno. pose proof (not_decimal_number_unread age Hno) as Hp.
  split; [|split].
  - intros sid icd st. unfold age_decimal in Hp.
    destruct (PyFloat.parse age) as [x|] eqn:Hx.
    + exists ValidationError. split; [auto|].
      eapply create_condition_refused; [exact Hx|exact Hp].
    + exists ValueError. split; [auto|]. apply create_condition_raises, Hx.
  - intros dv st Hl. apply create_bundle_rejected.
    eapply unreadable_age_not_accepted; eassumption.
  - intros lines rid before line after Hne Hl Hage.
    destruct (main_bundle_mode lines (Some rid)) as (rid' & [= <-] & _ & ->).
    { destruct rid; [congruence|reflexivity]. }
    pose proof (unreadable_age_not_accepted _ age Hp Hage) as Hacc.
    destruct (for_each_process_line rid (tail lines)
                (mkState ∅ ∅ ∅ ∅ (Some rid) 0 []) eq_refl)
      as (res & st' & fin & outs & k & -> & Hw & HF & _ & Hend).
    cbn in Hw.
    pose proof (written_for_accepted _ _ _ HF) as Hfin.
    destruct Hend as [[-> ->]|(e & bad & rest & -> & Hl' & Hbad)].
    + exfalso. rewrite Hl in Hfin. apply Forall_app in Hfin as [_ Hfin].
      apply Forall_cons in Hfin as [Hfin _]. congruence.
    + exists e, st'. split; [reflexivity|].
      rewrite Hw, <- (Forall2_length _ _ _ HF).
      destruct (decide (length fin <= length before)%nat) as [|Hgt]; [assumption|].
      exfalso. assert (Hlt : (length before < length fin)%nat) by lia.
      assert (Hk : fin !! length before = Some line).
      { rewrite <- (lookup_app_l fin (bad :: rest)) by exact Hlt.
        rewrite <- Hl', Hl. rewrite lookup_app_r by lia.
        rewrite Nat.sub_diag. reflexivity. }
      rewrite Forall_lookup in Hfin. specialize (Hfin _ _ Hk). congruence.
Qed.

End Facts.

(** * The properties on the sample data *)

Lemma sample_row_columns : columns sample_row = Some sample_columns.
Proof. reflexivity. Qed.

Lemma sample_row_valid :
  fields_valid sample_valid_string sample_valid_code sample_columns = true.
Proof. vm_compute. reflexivity. Qed.

Lemma sample_row_age : age_decimal (col_age sample_columns) = Some sample_decimal.
Proof. vm_compute. reflexivity. Qed.

Lemma sample_row_deceased_columns :
  columns sample_row_deceased = Some sample_columns_deceased.
Proof. reflexivity. Qed.

Lemma sample_row_deceased_valid :
  fields_valid sample_valid_string sample_valid_code sample_columns_deceased = true.
Proof. vm_compute. reflexivity. Qed.

Lemma sample_row_deceased_age :
  age_decimal (col_age sample_columns_deceased) = Some sample_decimal_48.
Proof. vm_compute. reflexivity. Qed.

(** C1, as stated, fails on the sample row, whatever library accepts
    its fields: the reference of the enrollment to the study is the
    [fullUrl] of no entry. *)
Lemma study_reference_dangles :
  fields_valid sample_valid_string sample_valid_code sample_columns = true ∧
  ∀ valid_string valid_code,
    fields_valid valid_string valid_code sample_columns = true ->
    ∃ b st',
      create_bundle sample_uuid4 valid_string valid_code sample_row sample_state
        = (Returns (b, "TCGA-2J-AAB1"), st') ∧
      "ResearchStudy/study-1" ∈ bundle_references b ∧
      ¬ closed_bundle b.
Proof.
  split; [exact sample_row_valid|]. intros vs vc Hf.
  rewrite (create_bundle_accepted sample_uuid4 vs vc sample_row sample_columns
             sample_decimal sample_state "study-1"
             sample_row_columns Hf sample_row_age eq_refl).
  eexists _, _. split; [reflexivity|].
  assert (Href : "ResearchStudy/study-1" ∈
          bundle_references
            (Bundle.mk "transaction"
               (entries_of sample_columns sample_decimal "study-1"
                  (sample_uuid4 0) (sample_uuid4 1) (sample_uuid4 2) (sample_uuid4 3)))).
  { apply list_elem_of_In. vm_compute. auto. }
  split; [exact Href|]. intros Hclosed.
  specialize (Hclosed _ Href). apply list_elem_of_In in Hclosed.
  vm_compute in Hclosed.
  repeat (destruct Hclosed as [Hclosed|Hclosed]; [discriminate|]). exact Hclosed.
Qed.

Lemma references_within_bundle_witness :
  ∃ b st',
    create_bundle sample_uuid4 sample_valid_string sample_valid_code
      sample_row sample_state
      = (Returns (b, "TCGA-2J-AAB1"), st') ∧
    (∃ e, head (Bundle.entry b) = Some e ∧
          kind_of (BundleEntry.resource e) = KPatient ∧
          BundleEntry.fullUrl e = "Patient/" +:+ resource_id (BundleEntry.resource e) ∧
          ∀ u, u ∈ resources b ≫= patient_references -> u = BundleEntry.fullUrl e) ∧
    resources b ≫= study_references = ["ResearchStudy/" +:+ "study-1"] ∧
    "ResearchStudy/" +:+ "study-1" ∉ full_urls b.
Proof.
  exact (references_within_bundle sample_uuid4 sample_valid_string sample_valid_code
           sample_row sample_columns sample_decimal sample_state "study-1"
           sample_row_columns eq_refl sample_row_valid sample_row_age eq_refl).
Defined.

Lemma create_bundle_entry_order_witness :
  ∃ b st',
    create_bundle sample_uuid4 sample_valid_string sample_valid_code
      sample_row sample_state
      = (Returns (b, "TCGA-2J-AAB1"), st') ∧
    Bundle.type b = "transaction" ∧
    kinds b = [KPatient; KResearchSubject; KCondition; KProcedure].
Proof.
  exact (create_bundle_entry_order sample_uuid4 sample_valid_string sample_valid_code
           sample_row sample_columns sample_decimal sample_state "study-1"
           sample_row_columns eq_refl sample_row_valid sample_row_age eq_refl).
Defined.

(** C3, as stated, fails on the sample row, whatever library accepts
    its fields: the bundle has no entry for the study, and no entry
    carries the guard of the study. *)
Lemma no_study_entry :
  fields_valid sample_valid_string sample_valid_code sample_columns = true ∧
  ∀ valid_string valid_code,
    fields_valid valid_string valid_code sample_columns = true ->
    ∃ b st',
      create_bundle sample_uuid4 valid_string valid_code sample_row sample_state
        = (Returns (b, "TCGA-2J-AAB1"), st') ∧
      kinds b = [KPatient; KResearchSubject; KCondition; KProcedure] ∧
      Forall (fun r => BundleEntryRequest.url r ≠ "ResearchStudy" ∧
                       BundleEntryRequest.ifNoneExist r ≠
                         BundleEntryRequest.ifNoneExist research_study_request)
             (requests b).
Proof.
  split; [exact sample_row_valid|]. intros vs vc Hf.
  rewrite (create_bundle_accepted sample_uuid4 vs vc sample_row sample_columns
             sample_decimal sample_state "study-1"
             sample_row_columns Hf sample_row_age eq_refl).
  eexists _, _. split; [reflexivity|]. split; [reflexivity|].
  repeat (constructor; [split; vm_compute; discriminate|]). constructor.
Qed.

Lemma conditional_create_guards_witness :
  ∃ b st',
    create_bundle sample_uuid4 sample_valid_string sample_valid_code
      sample_row sample_state
      = (Returns (b, "TCGA-2J-AAB1"), st') ∧
    requests b =
      [BundleEntryRequest.mk "Patient" "POST"
         (Some "identifier=https://www.gmds.de/pk-nachwuchs/patient|tcga-abc");
       BundleEntryRequest.mk "ResearchSubject" "POST"
         (Some "identifier=https://www.cbioportal.org/patient|TCGA-2J-AAB1");
       BundleEntryRequest.mk "Condition" "POST" None;
       BundleEntryRequest.mk "Procedure" "POST" None] ∧
    Forall (fun r => BundleEntryRequest.url r ≠ "ResearchStudy") (requests b).
Proof.
  destruct (conditional_create_guards sample_uuid4 sample_valid_string
              sample_valid_code sample_row sample_columns
              sample_decimal sample_state "study-1"
              sample_row_columns eq_refl sample_row_valid sample_row_age eq_refl)
    as (b & st' & Hrun & Hreq & _ & _ & Hno).
  exists b, st'. split; [exact Hrun|]. split; [exact Hreq|exact Hno].
Defined.

(** C4, as stated, fails on the sample row, whatever library accepts
    its fields: the unit of the onset age is [a], not [years]. *)
Lemma onset_age_unit_not_years :
  fields_valid sample_valid_string sample_valid_code sample_columns = true ∧
  sample_row !! 3%nat = Some "63.5" ∧
  ∀ valid_string valid_code,
    fields_valid valid_string valid_code sample_columns = true ->
    ∃ b st' cond,
      create_bundle sample_uuid4 valid_string valid_code sample_row sample_state
        = (Returns (b, "TCGA-2J-AAB1"), st') ∧
      resources b !! 2%nat = Some (RCondition cond) ∧
      Age.unit (Condition.onsetAge cond) = "a" ∧
      Age.unit (Condition.onsetAge cond) ≠ "years".
Proof.
  split; [exact sample_row_valid|]. split; [reflexivity|]. intros vs vc Hf.
  rewrite (create_bundle_accepted sample_uuid4 vs vc sample_row sample_columns
             sample_decimal sample_state "study-1"
             sample_row_columns Hf sample_row_age eq_refl).
  eexists _, _, _. split; [reflexivity|]. split; [reflexivity|].
  split; [reflexivity|discriminate].
Qed.

Lemma onset_age_value_and_unit_witness :
  ∃ b st',
    create_bundle sample_uuid4 sample_valid_string sample_valid_code
      sample_row sample_state
      = (Returns (b, "TCGA-2J-AAB1"), st') ∧
    ∃ cond, resources b !! 2%nat = Some (RCondition cond) ∧
            Condition.onsetAge cond = Age.mk (PyDecimal.mk false 635 (-1)) "a" ∧
            Qeq (PyDecimal.to_Q sample_decimal) (Qmake 127 2).
Proof.
  destruct (onset_age_value_and_unit sample_uuid4 sample_valid_string
              sample_valid_code sample_row sample_columns
              sample_decimal sample_state "study-1"
              sample_row_columns eq_refl sample_row_valid sample_row_age eq_refl)
    as (b & st' & Hrun & cond & Hcond & Hage & Hexact & _).
  exists b, st'. split; [exact Hrun|]. exists cond.
  split; [exact Hcond|]. split; [exact Hage|]. exact (proj2 (Hexact eq_refl)).
Defined.

Lemma flags_exact_match_witness :
  (∀ s, living_status_of s = true ↔ s = "0:LIVING") ∧
  (∀ s, radio_therapy_of s = true ↔ s = "Yes") ∧
  ∃ b st',
    create_bundle sample_uuid4 sample_valid_string sample_valid_code
      sample_row_deceased sample_state
      = (Returns (b, "TCGA-2J-AAB1"), st') ∧
    (KProcedure ∈ kinds b ↔ "yes" = "Yes").
Proof.
  exact (flags_exact_match sample_uuid4 sample_valid_string sample_valid_code
           sample_row_deceased sample_columns_deceased sample_decimal_48
           sample_state "study-1"
           sample_row_deceased_columns eq_refl sample_row_deceased_valid
           sample_row_deceased_age eq_refl).
Defined.

Lemma get_label_table_witness :
  get_label "C25.0" = Some "Bösartige Neubildung: Pankreaskopf" ∧
  get_label "Z99.9" = None ∧
  ∃ b st',
    create_bundle sample_uuid4 sample_valid_string sample_valid_code
      sample_row_deceased sample_state
      = (Returns (b, "TCGA-2J-AAB1"), st') ∧
    ∃ cond, resources b !! 2%nat = Some (RCondition cond) ∧
            CodeableConcept.coding (Condition.code cond) =
              [Coding.mk "http://fhir.de/CodeSystem/bfarm/icd-10-gm" "Z99.9" None].
Proof.
  destruct (get_label_table sample_uuid4 sample_valid_string sample_valid_code
              sample_row_deceased sample_columns_deceased sample_decimal_48
              sample_state "study-1"
              sample_row_deceased_columns eq_refl sample_row_deceased_valid
              sample_row_deceased_age eq_refl)
    as (Hknown & _ & _ & _ & Hunknown & b & st' & Hrun & cond & Hcond & Hcode).
  assert (Hz : "Z99.9" ∉ known_codes).
  { intros H. unfold known_codes in H.
    repeat (apply elem_of_cons in H as [H|H]; [discriminate|]).
    by apply elem_of_nil in H. }
  split; [exact Hknown|]. split; [exact (Hunknown _ Hz)|].
  exists b, st'. split; [exact Hrun|]. exists cond.
  split; [exact Hcond|exact (Hcode Hz)].
Defined.



Lemma unreadable_age_is_fatal_witness :
  (∃ e st',
     create_bundle sample_uuid4 sample_valid_string sample_valid_code
       sample_row_bad_age sample_state = (Raises e, st') ∧
     written st' = written sample_state) ∧
  (∃ e st',
     main sample_uuid4 sample_valid_string sample_valid_code
       sample_lines_bad_age (Some "study-1") initial
       = (Raises e, st') ∧
     (length (written st') <= 1)%nat).
Proof.
  destruct (unreadable_age_is_fatal sample_uuid4 sample_valid_string
              sample_valid_code "unknown" eq_refl)
    as (_ & Hbundle & Hmain).
  { intros H. apply decimal_number_has_digit in H. discriminate H. }
  split.
  - apply Hbundle. reflexivity.
  - apply (Hmain sample_lines_bad_age "study-1"
             [PyStr.join tab sample_row] (PyStr.join tab sample_row_bad_age)
             [PyStr.join tab sample_row_deceased]).
    + discriminate.
    + reflexivity.
    + vm_compute. reflexivity.
Defined.

Lemma identifiers_fresh_witness :
  let outs :=
    written (snd (main sample_uuid4 sample_valid_string sample_valid_code
                    sample_lines (Some "study-1") initial)) in
  length outs = 2%nat ∧
  NoDup (outs ≫= output_ids) ∧
  (∀ i j ni nj bi bj pi pj,
     i ≠ j ->
     outs !! i = Some (BundleFile ni bi) -> outs !! j = Some (BundleFile nj bj) ->
     head (resources bi) = Some (RPatient pi) ->
     head (resources bj) = Some (RPatient pj) ->
     Patient.id pi ≠ Patient.id pj).
Proof.
  destruct (identifiers_fresh sample_uuid4 sample_valid_string sample_valid_code
              sample_lines (Some "study-1") pretty_nat_inj) as (Hnd & _ & Hpat).
  split; [vm_compute; reflexivity|]. split; [exact Hnd|exact Hpat].
Defined.

Lemma deceased_boolean_is_living_flag_witness :
  ∃ b st',
    create_bundle sample_uuid4 sample_valid_string sample_valid_code
      sample_row sample_state
      = (Returns (b, "TCGA-2J-AAB1"), st') ∧
    ∃ pat, head (resources b) = Some (RPatient pat) ∧
           Patient.deceasedBoolean pat = living_status_of "0:LIVING" ∧
           (Patient.deceasedBoolean pat = true ↔ "0:LIVING" = "0:LIVING").
Proof.
  exact (deceased_boolean_is_living_flag sample_uuid4 sample_valid_string
           sample_valid_code sample_row sample_columns
           sample_decimal sample_state "study-1"
           sample_row_columns eq_refl sample_row_valid sample_row_age eq_refl).
Defined.

(** * Further properties of the converter *)

Section MoreFacts.

Variable uuid4_stream : nat -> string.
Variable valid_string : string -> bool.
Variable valid_code : string -> bool.

Lemma columns_short data_values :
  (length data_values <= 50)%nat -> columns data_values = None.
Proof.
  intros Hlen. unfold columns.
  rewrite (lookup_ge_None_2 data_values 50) by lia.
  repeat match goal with
         | |- context [data_values !! ?i] => destruct (data_values !! i); cbn
         end; reflexivity.
Qed.

Lemma columns_long data_values :
  (50 < length data_values)%nat -> is_Some (columns data_values).
Proof.
  intros Hlen. unfold columns.
  repeat match goal with
         | |- context [data_values !! ?i] =>
             let H := fresh in
             destruct (lookup_lt_is_Some_2 data_values i) as [? H]; [lia|];
             rewrite H; cbn
         end.
  eauto.
Qed.

(** X1: a row of fewer than 51 fields makes [create_bundle] raise
    [IndexError] before anything else happens: no identifier is drawn
    and no dictionary changes. *)
Theorem short_row_index_error data_values st :
  (length data_values <= 50)%nat ->
  create_bundle uuid4_stream valid_string valid_code data_values st = (Raises IndexError, st).
Proof.
  intros Hlen. rewrite create_bundle_eq. unfold bundle_outcome.
  rewrite (columns_short _ Hlen). reflexivity.
Qed.

Lemma columns_subject data_values c :
  columns data_values = Some c -> data_values !! 1%nat = Some (col_subject c).
Proof.
  unfold columns. intros Hc.
  destruct (data_values !! 1%nat); [|discriminate].
  repeat match type of Hc with
         | context [data_values !! ?i] =>
             destruct (data_values !! i); [|discriminate]
         end.
  cbn in Hc. injection Hc as <-. reflexivity.
Qed.

(** X2: the outcomes of [create_bundle], in the order in which the
    code meets them.  It returns exactly for an accepted row under a
    bound study.  It raises [IndexError] for a row of fewer than 51
    fields; [ValidationError] when the library refuses a string of the
    row or an age that is not finite; [NameError] when the study is
    unbound; [ValueError] when [float] cannot read the age; and never a
    [KeyError], since each dictionary lookup follows the assignment of
    the same key. *)
Theorem create_bundle_outcomes data_values st :
  faithful_row data_values = true ->
  match fst (create_bundle uuid4_stream valid_string valid_code data_values st) with
  | Returns (_, sid) =>
      accepted valid_string valid_code data_values = true ∧
      is_Some (research_study_id st) ∧
      data_values !! 1%nat = Some sid
  | Raises IndexError => (length data_values <= 50)%nat
  | Raises ValidationError =>
      (50 < length data_values)%nat ∧
      accepted valid_string valid_code data_values = false ∧
      ∃ c, columns data_values = Some c ∧
           (fields_valid valid_string valid_code c = false ∨
            ∃ x, PyFloat.parse (col_age c) = Some x ∧ PyFloat.is_finite x = false)
  | Raises NameError =>
      (50 < length data_values)%nat ∧ research_study_id st = None
  | Raises ValueError =>
      (50 < length data_values)%nat ∧ is_Some (research_study_id st) ∧
      ∃ c, columns data_values = Some c ∧
           fields_valid valid_string valid_code c = true ∧
           PyFloat.parse (col_age c) = None
  | Raises KeyError => False
  | Raises (SystemExit _) => False
  end.
Proof.
  intros _. rewrite create_bundle_eq. unfold bundle_outcome, accepted.
  destruct (decide (length data_values <= 50)%nat) as [Hlen|Hlen].
  { rewrite (columns_short _ Hlen). exact Hlen. }
  destruct (columns_long data_values) as [c Hc]; [lia|]. rewrite Hc.
  pose proof (columns_subject _ _ Hc) as Hsid.
  assert (Hrefused : fields_valid valid_string valid_code c = false ->
            (50 < length data_values)%nat ∧
            fields_valid valid_string valid_code c
              && bool_decide (is_Some (age_decimal (col_age c))) = false ∧
            ∃ c0, Some c = Some c0 ∧
              (fields_valid valid_string valid_code c0 = false ∨
               ∃ x, PyFloat.parse (col_age c0) = Some x ∧
                    PyFloat.is_finite x = false)).
  { intros Hf. split; [lia|]. split; [rewrite Hf; reflexivity|].
    exists c. auto. }
  unfold fields_valid in Hrefused at 1.
  destruct (valid_string (patient_guard c)) eqn:H1; cbn [andb negb];
    [|apply Hrefused; reflexivity].
  destruct (valid_string (subject_guard c)) eqn:H2; cbn [andb negb];
    [|apply Hrefused; reflexivity].
  destruct (valid_string (PyStr.lower (col_secondary c))) eqn:H3; cbn [andb negb];
    [|apply Hrefused; reflexivity].
  destruct (valid_code (PyStr.lower (col_gender c))) eqn:H4; cbn [andb negb];
    [|apply Hrefused; reflexivity].
  destruct (research_study_id st) as [rid|]; cbn [fst];
    [|split; [lia|reflexivity]].
  destruct (valid_string (col_subject c)) eqn:H5; cbn [andb negb];
    [|apply Hrefused; reflexivity].
  assert (Hf : fields_valid valid_string valid_code c = true).
  { unfold fields_valid. rewrite H1, H2, H3, H4, H5. reflexivity. }
  unfold age_decimal.
  destruct (PyFloat.parse (col_age c)) as [x|] eqn:Hx; cbn.
  - destruct (PyDecimal.of_float x) as [v|] eqn:Hv; cbn.
    + split; [rewrite Hf; reflexivity|]. split; [eauto|exact Hsid].
    + split; [lia|]. split; [rewrite Hf; reflexivity|].
      exists c. split; [reflexivity|].
      right. exists x. split; [exact Hx|].
      destruct x; first [discriminate Hv | reflexivity | idtac].
      cbn in Hv. destruct (PyDecimal.repr_digits m e). discriminate Hv.
  - split; [lia|]. split; [eauto|]. exists c. auto.
Qed.

(** X3: when the strings of a row are accepted and its age is not,
    [create_bundle] raises only after the Patient and the
    ResearchSubject were made: [ValueError] when [float] cannot read the
    age, [ValidationError] when it reads a number that is not finite.
    Two identifiers are drawn and stay registered for the subject,
    though no bundle is returned. *)
Theorem unreadable_age_leaves_registrations data_values c st rid :
  columns data_values = Some c ->
  faithful_row data_values = true ->
  fields_valid valid_string valid_code c = true ->
  age_decimal (col_age c) = None ->
  research_study_id st = Some rid ->
  ∃ st',
    create_bundle uuid4_stream valid_string valid_code data_values st
      = (Raises (match PyFloat.parse (col_age c) with
                | Some _ => ValidationError
                | None => ValueError
                end), st') ∧
    patients_uuid st' !! col_subject c = Some (uuid4_stream (uuid4_calls st)) ∧
    research_subject_uuid st' !! col_subject c
      = Some (uuid4_stream (S (uuid4_calls st))) ∧
    condition_uuid st' = condition_uuid st ∧
    procedure_uuid st' = procedure_uuid st ∧
    uuid4_calls st' = S (S (uuid4_calls st)) ∧
    written st' = written st.
Proof.
  intros Hc _ Hf Hv Hr. rewrite create_bundle_eq. unfold bundle_outcome.
  destruct (fields_valid_true valid_string valid_code c Hf)
    as (H1 & H2 & H3 & H4 & H5).
  rewrite Hc, H1, H2, H3, H4, H5, Hr. cbn [negb andb].
  unfold age_decimal in Hv.
  destruct (PyFloat.parse (col_age c)) as [x|]; cbn in Hv; [rewrite Hv|];
    (eexists; split; [reflexivity|]);
    destruct st; cbn; rewrite !lookup_insert_eq; repeat split.
Qed.

(** X4: after an accepted row, each dictionary maps the subject to the
    identifier of the resource of its kind in the bundle, whatever it
    held for that subject before; the entries of other subjects are
    untouched, and three identifiers are drawn, or four with a
    Procedure. *)
Theorem registries_after_accepted_row data_values c v st rid :
  columns data_values = Some c ->
  faithful_row data_values = true ->
  fields_valid valid_string valid_code c = true ->
  age_decimal (col_age c) = Some v ->
  research_study_id st = Some rid ->
  ∃ b st',
    create_bundle uuid4_stream valid_string valid_code data_values st = (Returns (b, col_subject c), st') ∧
    Forall (fun r => registry (kind_of r) st' !! col_subject c = Some (resource_id r))
           (resources b) ∧
    (∀ k other, other ≠ col_subject c ->
       registry k st' !! other = registry k st !! other) ∧
    (radio_therapy_of (col_radio c) = false ->
       procedure_uuid st' = procedure_uuid st) ∧
    uuid4_calls st' = (uuid4_calls st + length (resources b))%nat ∧
    research_study_id st' = Some rid ∧
    written st' = written st.
Proof.
  intros Hc _ Hf Hv Hr.
  rewrite (create_bundle_accepted _ _ _ _ _ _ _ _ Hc Hf Hv Hr).
  eexists _, _. split; [reflexivity|].
  unfold resources, entries_of; cbn [Bundle.entry].
  destruct st as [P S C R i n w]. cbn in Hr. subst i.
  destruct (radio_therapy_of (col_radio c)); cbn.
  - split; [repeat constructor; cbn; apply lookup_insert_eq|].
    split; [intros [] other Hne; cbn; by rewrite lookup_insert_ne|].
    split; [discriminate|]. split; [lia|]. split; reflexivity.
  - split; [repeat constructor; cbn; apply lookup_insert_eq|].
    split; [intros [] other Hne; cbn; rewrite ?lookup_insert_ne by done; reflexivity|].
    split; [reflexivity|]. split; [lia|]. split; reflexivity.
Qed.

(** X5: the builders that refer to the Patient look the subject up in
    [patients_uuid]; for a subject that [create_patient] has not
    registered they raise [KeyError] and leave the state as it was.  The
    Condition does so only after its age was read and stored: an age
    [float] cannot read raises [ValueError], and one that is not finite
    [ValidationError], before the lookup. *)
Theorem unregistered_subject_key_error sid st :
  patients_uuid st !! sid = None ->
  create_research_subject uuid4_stream valid_string sid st = (Raises KeyError, st) ∧
  create_procedure uuid4_stream sid st = (Raises KeyError, st) ∧
  (∀ icd age,
     PyStr.is_ascii age = true ->
     create_condition uuid4_stream sid icd age st =
       (Raises (match PyFloat.parse age with
                | None => ValueError
                | Some x => if PyFloat.is_finite x then KeyError else ValidationError
                end), st)).
Proof.
  intros Hnone. split; [|split].
  - unfold create_research_subject, getitem. cbv [mbind M_bind].
    rewrite Hnone. reflexivity.
  - unfold create_procedure, getitem. cbv [mbind M_bind].
    rewrite Hnone. reflexivity.
  - intros icd age _. unfold create_condition, float, decimal_field, getitem.
    cbv [mbind M_bind mret M_ret raise].
    destruct (PyFloat.parse age) as [x|]; [|reflexivity].
    destruct x as [s| | |s m e]; cbn; rewrite ?Hnone; try reflexivity.
    destruct (PyDecimal.repr_digits m e). rewrite Hnone. reflexivity.
Qed.

(** X6: what [create_bundle] returns or raises depends on the row, on
    the bound study and on the number of identifiers drawn so far, and
    on nothing the dictionaries hold: no row reads what an earlier row
    registered. *)
Theorem bundle_independent_of_registries data_values st1 st2 :
  research_study_id st1 = research_study_id st2 ->
  uuid4_calls st1 = uuid4_calls st2 ->
  fst (create_bundle uuid4_stream valid_string valid_code data_values st1)
  = fst (create_bundle uuid4_stream valid_string valid_code data_values st2).
Proof.
  intros Hr Hn. rewrite !create_bundle_eq. unfold bundle_outcome.
  destruct (columns data_values) as [c|]; [|reflexivity].
  rewrite Hr, Hn.
  destruct (negb _); [reflexivity|].
  destruct (negb _); [reflexivity|].
  destruct (research_study_id st2); [|reflexivity].
  destruct (negb _); [reflexivity|].
  destruct (PyFloat.parse (col_age c)) as [x|]; [|reflexivity].
  destruct (PyDecimal.of_float x); reflexivity.
Qed.

(** X7: the guard of an entry searches for exactly the identifier its
    resource carries: the Patient and the ResearchSubject have one
    identifier each and their [ifNoneExist] is the query for it; the
    Condition and the Procedure have no identifier and no guard. *)
Theorem guards_match_identifiers data_values c v st rid :
  columns data_values = Some c ->
  faithful_row data_values = true ->
  fields_valid valid_string valid_code c = true ->
  age_decimal (col_age c) = Some v ->
  research_study_id st = Some rid ->
  ∃ b st',
    create_bundle uuid4_stream valid_string valid_code data_values st = (Returns (b, col_subject c), st') ∧
    Forall (fun e =>
              BundleEntryRequest.ifNoneExist (BundleEntry.request e)
              = identifier_query <$> head (resource_identifiers (BundleEntry.resource e))
              ∧ (length (resource_identifiers (BundleEntry.resource e)) <= 1)%nat)
           (Bundle.entry b).
Proof.
  intros Hc _ Hf Hv Hr.
  rewrite (create_bundle_accepted _ _ _ _ _ _ _ _ Hc Hf Hv Hr).
  eexists _, _. split; [reflexivity|].
  unfold entries_of; cbn [Bundle.entry].
  destruct (radio_therapy_of (col_radio c)); cbn;
    repeat (constructor; [split; [reflexivity|cbn; lia]|]); constructor.
Qed.

(** X8: every entry of the bundle is a POST to the class of its
    resource, and its [fullUrl] is the class name, a slash and the [id]
    of the resource; the [fullUrl]s of one bundle are pairwise distinct,
    whatever identifiers were drawn. *)
Theorem entries_well_formed data_values c v st rid :
  columns data_values = Some c ->
  faithful_row data_values = true ->
  fields_valid valid_string valid_code c = true ->
  age_decimal (col_age c) = Some v ->
  research_study_id st = Some rid ->
  ∃ b st',
    create_bundle uuid4_stream valid_string valid_code data_values st = (Returns (b, col_subject c), st') ∧
    Forall (fun e =>
              let k := kind_name (kind_of (BundleEntry.resource e)) in
              BundleEntry.fullUrl e = k +:+ "/" +:+ resource_id (BundleEntry.resource e) ∧
              BundleEntryRequest.url (BundleEntry.request e) = k ∧
              BundleEntryRequest.method (BundleEntry.request e) = "POST")
           (Bundle.entry b) ∧
    NoDup (full_urls b).
Proof.
  intros Hc _ Hf Hv Hr.
  rewrite (create_bundle_accepted _ _ _ _ _ _ _ _ Hc Hf Hv Hr).
  eexists _, _. split; [reflexivity|].
  unfold full_urls, entries_of; cbn [Bundle.entry].
  destruct (radio_therapy_of (col_radio c)); cbn.
  - split; [repeat (constructor; [repeat split|]); constructor|].
    repeat (apply NoDup_cons; split;
            [intros H; repeat (apply elem_of_cons in H as [H|H];
                               [vm_compute in H; discriminate|]);
             by apply elem_of_nil in H|]).
    apply NoDup_nil_2.
  - split; [repeat (constructor; [repeat split|]); constructor|].
    repeat (apply NoDup_cons; split;
            [intros H; repeat (apply elem_of_cons in H as [H|H];
                               [vm_compute in H; discriminate|]);
             by apply elem_of_nil in H|]).
    apply NoDup_nil_2.
Qed.

(** *** Lines and fields *)

Lemma split_nonempty sep s : PyStr.split sep s ≠ [].
Proof.
  destruct s as [|c r]; cbn; [discriminate|].
  destruct (Ascii.eqb c sep); [discriminate|].
  destruct (PyStr.split sep r); discriminate.
Qed.

Lemma split_length sep s :
  length (PyStr.split sep s) = S (str_count sep s).
Proof.
  induction s as [|c r IH]; cbn; [reflexivity|].
  destruct (Ascii.eqb c sep); cbn; [rewrite IH; reflexivity|].
  destruct (PyStr.split sep r); cbn in *; [discriminate|exact IH].
Qed.

Lemma join_split sep s :
  PyStr.join (String sep EmptyString) (PyStr.split sep s) = s.
Proof.
  induction s as [|c r IH]; cbn; [reflexivity|].
  destruct (Ascii.eqb_spec c sep) as [->|Hne].
  - pose proof (split_nonempty sep r) as Hn.
    destruct (PyStr.split sep r) as [|w ws]; [done|].
    rewrite <- IH. reflexivity.
  - pose proof (split_nonempty sep r) as Hn.
    destruct (PyStr.split sep r) as [|w ws]; [done|].
    destruct ws as [|x ws]; cbn in *; rewrite <- IH; reflexivity.
Qed.

Lemma split_fields_free sep s :
  Forall (fun w => str_count sep w = 0%nat) (PyStr.split sep s).
Proof.
  induction s as [|c r IH]; cbn; [repeat constructor|].
  destruct (Ascii.eqb c sep) eqn:Hc; [constructor; [reflexivity|exact IH]|].
  destruct (PyStr.split sep r) as [|w ws]; [repeat constructor; cbn; by rewrite Hc|].
  apply Forall_cons in IH as [Hw Hws]. constructor; [|exact Hws].
  cbn. rewrite Hc, Hw. reflexivity.
Qed.

Lemma split_free sep w :
  str_count sep w = 0%nat -> PyStr.split sep w = [w].
Proof.
  induction w as [|c r IH]; cbn; [reflexivity|].
  destruct (Ascii.eqb c sep); [discriminate|].
  intros H. rewrite (IH H). reflexivity.
Qed.

Lemma split_app_sep sep w t :
  str_count sep w = 0%nat ->
  PyStr.split sep (w ++ String sep t)%string = w :: PyStr.split sep t.
Proof.
  induction w as [|c r IH]; [rewrite append_nil_l|rewrite append_cons]; cbn.
  - intros _. rewrite Ascii.eqb_refl. reflexivity.
  - destruct (Ascii.eqb c sep); [discriminate|].
    intros H. rewrite (IH H). reflexivity.
Qed.

(** X9: [split] loses nothing and cuts at every separator: a line with
    [n] tabs has [n + 1] fields, none of which holds a tab, and joining
    the fields with tabs gives the line back. *)
Theorem split_fields sep s :
  length (PyStr.split sep s) = S (str_count sep s) ∧
  Forall (fun w => str_count sep w = 0%nat) (PyStr.split sep s) ∧
  PyStr.join (String sep EmptyString) (PyStr.split sep s) = s.
Proof.
  split; [apply split_length|]. split; [apply split_fields_free|apply join_split].
Qed.

(** X10: a row of one field or more, none of which holds a tab, written
    as a tab-separated line, is read back by [split] as the same row. *)
Theorem split_join_round_trip sep (row : list string) :
  row ≠ [] ->
  Forall (fun w => str_count sep w = 0%nat) row ->
  PyStr.split sep (PyStr.join (String sep EmptyString) row) = row.
Proof.
  induction row as [|w row IH]; [done|]. intros _ Hall.
  apply Forall_cons in Hall as [Hw Hrow].
  destruct row as [|x row]; [exact (split_free sep w Hw)|].
  change (PyStr.join (String sep EmptyString) (w :: x :: row))
    with (w ++ String sep (PyStr.join (String sep EmptyString) (x :: row)))%string.
  rewrite (split_app_sep sep w _ Hw), IH; [reflexivity|discriminate|exact Hrow].
Qed.




Lemma split_app_tail sep s t :
  str_count sep t = 0%nat ->
  ∃ ws w, PyStr.split sep s = (ws ++ [w])%list ∧
          PyStr.split sep (s ++ t)%string = (ws ++ [(w ++ t)%string])%list.
Proof.
  intros Ht. induction s as [|c r (ws & w & Hs & Hst)].
  - exists [], EmptyString. rewrite append_nil_l, (split_free sep t Ht). auto.
  - rewrite append_cons. cbn. rewrite Hs, Hst.
    destruct (Ascii.eqb c sep).
    + exists (EmptyString :: ws), w. auto.
    + destruct ws as [|x ws]; cbn.
      * exists [], (String c w). auto.
      * exists (String c x :: ws), w. auto.
Qed.

Lemma lower_app a b : PyStr.lower (a ++ b) = (PyStr.lower a ++ PyStr.lower b)%string.
Proof.
  induction a as [|c r IH]; [reflexivity|].
  rewrite append_cons. cbn. rewrite IH. reflexivity.
Qed.

Lemma columns_lookups data_values c :
  columns data_values = Some c ↔
  data_values !! 1%nat = Some (col_subject c) ∧
  data_values !! 3%nat = Some (col_age c) ∧
  data_values !! 24%nat = Some (col_icd c) ∧
  data_values !! 35%nat = Some (col_living c) ∧
  data_values !! 36%nat = Some (col_secondary c) ∧
  data_values !! 46%nat = Some (col_radio c) ∧
  data_values !! 50%nat = Some (col_gender c).
Proof.
  unfold columns. split.
  - intros H.
    destruct (data_values !! 1%nat); [|discriminate].
    destruct (data_values !! 3%nat); [|discriminate].
    destruct (data_values !! 24%nat); [|discriminate].
    destruct (data_values !! 35%nat); [|discriminate].
    destruct (data_values !! 36%nat); [|discriminate].
    destruct (data_values !! 46%nat); [|discriminate].
    destruct (data_values !! 50%nat); [|discriminate].
    cbn in H. injection H as <-. cbn. repeat split.
  - intros (-> & -> & -> & -> & -> & -> & ->). destruct c. reflexivity.
Qed.

(** X12: [split] does not drop the line end.  For a line of exactly 51
    fields that ends in a newline, the newline stays in the last field,
    which is the gender column, so what is assigned to the [gender] of
    the Patient is the lowercased column followed by the newline.  When
    the code type of the library takes it, the Patient carries it;
    otherwise [create_bundle] raises [ValidationError] once the Patient
    is registered. *)
Theorem line_end_stays_in_gender s c v st rid :
  str_count "009" s = 50%nat ->
  columns (PyStr.split "009" s) = Some c ->
  faithful_row (PyStr.split "009" s) = true ->
  valid_string (patient_guard c) = true ->
  valid_string (subject_guard c) = true ->
  valid_string (PyStr.lower (col_secondary c)) = true ->
  valid_string (col_subject c) = true ->
  age_decimal (col_age c) = Some v ->
  research_study_id st = Some rid ->
  PyStr.split "009" (s ++ newline)%string !! 50%nat
    = Some (col_gender c ++ newline)%string ∧
  (valid_code (PyStr.lower (col_gender c) ++ newline)%string = true ->
   ∃ b st' pat,
     create_bundle uuid4_stream valid_string valid_code
       (PyStr.split "009" (s ++ newline)%string) st
       = (Returns (b, col_subject c), st') ∧
     head (resources b) = Some (RPatient pat) ∧
     Patient.gender pat = (PyStr.lower (col_gender c) ++ newline)%string) ∧
  (valid_code (PyStr.lower (col_gender c) ++ newline)%string = false ->
   create_bundle uuid4_stream valid_string valid_code
     (PyStr.split "009" (s ++ newline)%string) st
     = (Raises ValidationError,
        registered_patient uuid4_stream (col_subject c) st)).
Proof.
  intros Hn Hc _ H1 H2 H3 H5 Hv Hr.
  destruct (split_app_tail "009" s newline eq_refl) as (ws & w & Hs & Hst).
  assert (Hlen : length ws = 50%nat).
  { pose proof (split_length "009" s) as H. rewrite Hs, Hn, length_app in H.
    cbn in H. lia. }
  assert (Hc' : columns (PyStr.split "009" (s ++ newline)%string)
                = Some (mkColumns (col_subject c) (col_age c) (col_icd c)
                          (col_living c) (col_secondary c) (col_radio c)
                          (col_gender c ++ newline)%string)).
  { rewrite Hst. rewrite Hs in Hc.
    apply columns_lookups in Hc as (L1 & L3 & L24 & L35 & L36 & L46 & L50).
    rewrite lookup_app_l in L1, L3, L24, L35, L36, L46 by lia.
    rewrite lookup_app_r, Hlen in L50 by lia. injection L50 as L50.
    apply columns_lookups. cbn.
    rewrite !(lookup_app_l ws) by lia.
    rewrite (lookup_app_r ws), Hlen by lia.
    rewrite L50. auto 10. }
  split; [apply columns_lookups in Hc'; apply Hc'|].
  split.
  - intros H4.
    assert (Hf : fields_valid valid_string valid_code
                   (mkColumns (col_subject c) (col_age c) (col_icd c)
                      (col_living c) (col_secondary c) (col_radio c)
                      (col_gender c ++ newline)%string) = true).
    { unfold fields_valid, patient_guard, subject_guard in *. cbn [col_subject col_secondary col_gender].
      rewrite lower_app. change (PyStr.lower newline) with newline.
      rewrite H1, H2, H3, H4, H5. reflexivity. }
    rewrite (create_bundle_accepted _ _ _ _ _ v _ rid Hc' Hf Hv Hr).
    eexists _, _, _. split; [reflexivity|]. split; [reflexivity|].
    cbn. apply lower_app.
  - intros H4. rewrite create_bundle_eq. unfold bundle_outcome. rewrite Hc'.
    unfold patient_guard, subject_guard in *.
    cbn [col_subject col_secondary col_gender].
    rewrite lower_app. change (PyStr.lower newline) with newline.
    rewrite H1, H2, H3, H4. reflexivity.
Qed.

(** X13: the loop runs over [lines[1:]], so the first line is never
    read: a run with a study id on an empty table or on a table of one
    line returns without writing and without drawing an identifier, and
    the outcome of any run does not depend on what the first line
    holds. *)
Theorem first_line_is_skipped lines arg :
  (length lines <= 1)%nat ->
  falsy arg = false ->
  ∃ rid, arg = Some rid ∧
    main uuid4_stream valid_string valid_code lines arg initial
      = (Returns tt, mkState ∅ ∅ ∅ ∅ (Some rid) 0 []) ∧
    ∀ header header' rows,
      main uuid4_stream valid_string valid_code (header :: rows) arg initial
      = main uuid4_stream valid_string valid_code (header' :: rows) arg initial.
Proof.
  intros Hlen Hf.
  destruct (main_bundle_mode uuid4_stream valid_string valid_code lines arg Hf)
    as (rid & -> & _ & ->).
  exists rid. split; [reflexivity|]. split; [|reflexivity].
  destruct lines as [|h [|x r]]; [reflexivity|reflexivity|cbn in Hlen; lia].
Qed.


(** *** White space and [float] *)

Lemma space_not_underscore c : PyStr.is_space c = true -> Ascii.eqb c "_" = false.
Proof.
  intros H. destruct (Ascii.eqb_spec c "_") as [->|]; [discriminate H|reflexivity].
Qed.

Lemma space_not_digit c : PyStr.is_space c = true -> PyStr.is_digit c = false.
Proof.
  unfold PyStr.is_space, PyStr.is_digit, PyStr.in_range. intros H.
  apply orb_true_iff in H as [H|H].
  - apply andb_true_iff in H as [_ H]. apply Z.leb_le in H.
    apply andb_false_iff. left. apply Z.leb_gt. lia.
  - apply Z.eqb_eq in H. apply andb_false_iff. left. apply Z.leb_gt. lia.
Qed.

Lemma drop_underscores_prev p q s :
  PyStr.is_digit p = PyStr.is_digit q ->
  Ascii.eqb p "_" = Ascii.eqb q "_" ->
  PyFloat.drop_underscores p s = PyFloat.drop_underscores q s.
Proof.
  intros Hd Hu. destruct s as [|c r]; cbn [PyFloat.drop_underscores];
    rewrite ?Hd, ?Hu; reflexivity.
Qed.

Lemma drop_underscores_spaces p b :
  str_all PyStr.is_space b = true ->
  PyFloat.drop_underscores p b = if Ascii.eqb p "_" then None else Some b.
Proof.
  revert p. induction b as [|c r IH]; intros p Hb; cbn; [reflexivity|].
  cbn in Hb. apply andb_true_iff in Hb as [Hc Hr].
  rewrite (space_not_underscore c Hc), (space_not_digit c Hc), (IH c Hr).
  rewrite (space_not_underscore c Hc).
  destruct (Ascii.eqb p "_"); reflexivity.
Qed.

Lemma drop_underscores_app_spaces p s b :
  str_all PyStr.is_space b = true ->
  PyFloat.drop_underscores p (s ++ b)%string
  = (fun x => (x ++ b)%string) <$> PyFloat.drop_underscores p s.
Proof.
  intros Hb. revert p. induction s as [|c r IH]; intros p.
  - rewrite append_nil_l, (drop_underscores_spaces p b Hb). cbn.
    destruct (Ascii.eqb p "_"); reflexivity.
  - rewrite append_cons. cbn. rewrite IH.
    destruct (Ascii.eqb c "_"); [destruct (PyStr.is_digit p); reflexivity|].
    destruct (Ascii.eqb p "_" && negb (PyStr.is_digit c)); [reflexivity|].
    destruct (PyFloat.drop_underscores c r); reflexivity.
Qed.

Lemma drop_underscores_spaces_app a s :
  str_all PyStr.is_space a = true ->
  PyFloat.drop_underscores "000" (a ++ s)%string
  = (fun x => (a ++ x)%string) <$> PyFloat.drop_underscores "000" s.
Proof.
  induction a as [|c r IH]; intros Ha.
  - rewrite append_nil_l. destruct (PyFloat.drop_underscores "000" s); reflexivity.
  - cbn in Ha. apply andb_true_iff in Ha as [Hc Hr].
    rewrite append_cons. cbn. rewrite (space_not_underscore c Hc). cbn.
    rewrite (drop_underscores_prev c "000" (r ++ s)), (IH Hr).
    + destruct (PyFloat.drop_underscores "000" s); reflexivity.
    + rewrite (space_not_digit c Hc). reflexivity.
    + rewrite (space_not_underscore c Hc). reflexivity.
Qed.

Lemma lstrip_spaces_app a s :
  str_all PyStr.is_space a = true -> PyFloat.lstrip (a ++ s) = PyFloat.lstrip s.
Proof.
  induction a as [|c r IH]; intros Ha; [reflexivity|].
  cbn in Ha. apply andb_true_iff in Ha as [Hc Hr].
  rewrite append_cons. cbn. rewrite Hc. exact (IH Hr).
Qed.

Lemma lstrip_spaces b : str_all PyStr.is_space b = true -> PyFloat.lstrip b = EmptyString.
Proof.
  induction b as [|c r IH]; intros Hb; [reflexivity|].
  cbn in Hb. apply andb_true_iff in Hb as [Hc Hr].
  cbn. rewrite Hc. exact (IH Hr).
Qed.

Lemma rstrip_spaces b : str_all PyStr.is_space b = true -> PyFloat.rstrip b = EmptyString.
Proof.
  induction b as [|c r IH]; intros Hb; [reflexivity|].
  cbn in Hb. apply andb_true_iff in Hb as [Hc Hr].
  cbn. rewrite (IH Hr), Hc. reflexivity.
Qed.

Lemma rstrip_app_spaces s b :
  str_all PyStr.is_space b = true -> PyFloat.rstrip (s ++ b) = PyFloat.rstrip s.
Proof.
  intros Hb. induction s as [|c r IH].
  - rewrite append_nil_l. exact (rstrip_spaces b Hb).
  - rewrite append_cons. cbn. rewrite IH. reflexivity.
Qed.

Lemma strip_app_spaces s b :
  str_all PyStr.is_space b = true ->
  PyFloat.rstrip (PyFloat.lstrip (s ++ b)) = PyFloat.rstrip (PyFloat.lstrip s).
Proof.
  intros Hb. induction s as [|c r IH].
  - rewrite append_nil_l, (lstrip_spaces b Hb). reflexivity.
  - rewrite append_cons. cbn. destruct (PyStr.is_space c); [exact IH|].
    rewrite <- append_cons. apply rstrip_app_spaces, Hb.
Qed.

(** X15: [float] reads a field as it reads the field without the white
    space around it, so an age padded with blanks, or followed by the
    line end, gives the same onset age or the same [ValueError]. *)
Theorem float_ignores_surrounding_space before s after :
  str_all PyStr.is_space before = true ->
  str_all PyStr.is_space after = true ->
  PyFloat.parse (before ++ s ++ after)%string = PyFloat.parse s ∧
  ∀ sid icd st,
    fst (create_condition uuid4_stream sid icd (before ++ s ++ after)%string st)
    = fst (create_condition uuid4_stream sid icd s st).
Proof.
  intros Ha Hb.
  assert (Hp : PyFloat.parse (before ++ s ++ after)%string = PyFloat.parse s).
  { unfold PyFloat.parse.
    rewrite (drop_underscores_spaces_app before _ Ha),
            (drop_underscores_app_spaces "000" s after Hb).
    destruct (PyFloat.drop_underscores "000" s) as [s1|]; [|reflexivity].
    cbn. rewrite (lstrip_spaces_app before _ Ha), (strip_app_spaces s1 after Hb).
    reflexivity. }
  split; [exact Hp|].
  intros sid icd st. unfold create_condition, float. rewrite Hp. reflexivity.
Qed.

(** X16: an empty or blank age is no number: [create_condition] raises
    [ValueError] and leaves the state as it was, so a row with a missing
    age stops the run. *)
Theorem blank_age_raises age sid icd st :
  str_all PyStr.is_space age = true ->
  create_condition uuid4_stream sid icd age st = (Raises ValueError, st).
Proof.
  intros Hb. apply create_condition_raises.
  unfold PyFloat.parse. rewrite (drop_underscores_spaces "000" age Hb). cbn.
  rewrite (lstrip_spaces age Hb). reflexivity.
Qed.

Lemma binary_round_aux_opp m e l :
  binary_round_aux 53 1024 true m e l
  = SFopp (binary_round_aux 53 1024 false m e l).
Proof.
  unfold binary_round_aux.
  destruct (shr_fexp 53 1024 m e l) as [mrs e1].
  destruct (shr_fexp 53 1024 _ e1 loc_Exact) as [mrs2 e2].
  destruct (shr_m mrs2); [reflexivity| |reflexivity].
  destruct (e2 <=? 1024 - 53)%Z; reflexivity.
Qed.

Lemma round_decimal_opp m e :
  PyFloat.round_decimal true m e = SFopp (PyFloat.round_decimal false m e).
Proof.
  unfold PyFloat.round_decimal. destruct m as [|p|p]; [reflexivity| |reflexivity].
  destruct e as [|k|k].
  - unfold binary_normalize, binary_round.
    destruct (shl_align _ _ _). apply binary_round_aux_opp.
  - unfold binary_normalize, binary_round.
    destruct (shl_align _ _ _). apply binary_round_aux_opp.
  - unfold SFdiv. destruct (SFdiv_core_binary _ _ _ _ _ _) as [[mz ez] lz].
    apply binary_round_aux_opp.
Qed.

Lemma rstrip_cons c r :
  PyStr.is_space c = false ->
  ∃ t, PyFloat.rstrip (String c r) = String c t.
Proof.
  intros Hc. cbn. rewrite Hc. destruct (PyFloat.rstrip r); eauto.
Qed.

Lemma rstrip_cons_cons a c r t :
  PyFloat.rstrip (String c r) = String c t ->
  PyFloat.rstrip (String a (String c r)) = String a (String c t).
Proof.
  intros H. change (PyFloat.rstrip (String a (String c r)))
    with (match PyFloat.rstrip (String c r) with
          | EmptyString =>
              if PyStr.is_space a then EmptyString else String a EmptyString
          | String x y => String a (String x y)
          end).
  rewrite H. reflexivity.
Qed.

Lemma lstrip_cons c r :
  PyStr.is_space c = false -> PyFloat.lstrip (String c r) = String c r.
Proof. intros H. cbn. rewrite H. reflexivity. Qed.

Lemma drop_underscores_first c r :
  c ≠ "_"%char ->
  PyFloat.drop_underscores "000" (String c r)
  = String c <$> PyFloat.drop_underscores c r.
Proof.
  intros Hu. cbn [PyFloat.drop_underscores].
  rewrite (proj2 (Ascii.eqb_neq c "_") Hu). reflexivity.
Qed.

Lemma drop_underscores_minus s :
  PyFloat.drop_underscores "000" (String "-" s)
  = String "-" <$> PyFloat.drop_underscores "000" s.
Proof.
  rewrite drop_underscores_first by discriminate.
  rewrite (drop_underscores_prev "-" "000" s); reflexivity.
Qed.

Lemma take_sign_unsigned c t :
  c ≠ "-"%char -> c ≠ "+"%char ->
  PyFloat.take_sign (String c t) = (false, String c t).
Proof.
  intros Hm Hp.
  destruct c as [[] [] [] [] [] [] [] []]; try reflexivity; congruence.
Qed.

Lemma of_float_opp x :
  PyDecimal.of_float (SFopp x) = PyDecimal.opp <$> PyDecimal.of_float x.
Proof.
  destruct x as [s|s| |s m e]; try reflexivity.
  cbn. destruct (PyDecimal.repr_digits m e) as [c p]. cbn.
  unfold PyDecimal.of_digits. destruct (_ && _); reflexivity.
Qed.

(** X17: the age is not checked for its sign: a minus in front of a
    field that starts with neither a sign, an underscore nor white
    space negates what [float] reads, and what the decimal field
    stores, so the Condition of a registered subject is built with a
    negative onset age and no error. *)
Theorem minus_sign_negates_age c r x v sid icd p st :
  c ≠ "-"%char -> c ≠ "+"%char -> c ≠ "_"%char ->
  PyStr.is_space c = false ->
  PyStr.is_ascii (String c r) = true ->
  PyFloat.parse (String c r) = Some x ->
  PyDecimal.of_float x = Some v ->
  patients_uuid st !! sid = Some p ->
  PyFloat.parse (String "-" (String c r)) = Some (SFopp x) ∧
  ∃ cond st',
    create_condition uuid4_stream sid icd (String "-" (String c r)) st
      = (Returns cond, st') ∧
    Condition.onsetAge cond = Age.mk (PyDecimal.opp v) "a".
Proof.
  intros Hm Hp Hu Hs _ Hv Hd Hreg.
  assert (Hneg : PyFloat.parse (String "-" (String c r)) = Some (SFopp x)).
  { revert Hv. unfold PyFloat.parse.
    rewrite drop_underscores_minus, (drop_underscores_first c r Hu).
    destruct (PyFloat.drop_underscores c r) as [r1|]; [|discriminate].
    cbn [fmap option_fmap option_map mbind option_bind].
    rewrite (lstrip_cons "-" _ eq_refl), (lstrip_cons c r1 Hs).
    destruct (rstrip_cons c r1 Hs) as [t Ht].
    rewrite (rstrip_cons_cons "-" c r1 t Ht), Ht.
    rewrite (take_sign_unsigned c t Hm Hp).
    change (PyFloat.take_sign (String "-" (String c t))) with (true, String c t).
    cbv beta iota zeta.
    destruct (PyFloat.parse_decimal (String c t)) as [[m e]|].
    - intros [= <-]. rewrite round_decimal_opp. reflexivity.
    - unfold PyFloat.parse_inf_or_nan.
      destruct (_ || _); [intros [= <-]; reflexivity|].
      destruct (PyStr.eq _ _); [intros [= <-]; reflexivity|discriminate]. }
  split; [exact Hneg|].
  assert (Hd' : PyDecimal.of_float (SFopp x) = Some (PyDecimal.opp v)).
  { rewrite of_float_opp, Hd. reflexivity. }
  rewrite (create_condition_run uuid4_stream sid icd _ _ _ p st Hneg Hd' Hreg).
  eexists _, _. split; reflexivity.
Qed.

Lemma ages_read_exactly : forallb age_read_exactly (seq 0 150) = true.
Proof. vm_compute. reflexivity. Qed.

(** X18: every whole age from 0 to 149, and every such age and a half,
    is read by [float] without rounding: the onset age of the Condition
    is exactly the number written. *)
Theorem whole_and_half_ages_exact n :
  (n < 150)%nat ->
  ∃ x y q r,
    PyFloat.parse (pretty n) = Some x ∧ PyFloat.to_Q x = Some q ∧
    Qeq q (inject_Z (Z.of_nat n)) ∧
    PyFloat.parse (pretty n +:+ ".5") = Some y ∧ PyFloat.to_Q y = Some r ∧
    Qeq r (Qmake (Z.of_nat (2 * n + 1)) 2).
Proof.
  intros Hn. pose proof ages_read_exactly as H.
  rewrite forallb_forall in H. specialize (H n).
  assert (Hin : In n (seq 0 150)) by (apply in_seq; lia).
  specialize (H Hin). unfold age_read_exactly in H.
  destruct (PyFloat.parse (pretty n)) as [x|]; [|discriminate].
  destruct (PyFloat.parse (pretty n +:+ ".5")) as [y|]; [|discriminate].
  destruct (PyFloat.to_Q x) as [q|] eqn:Hx; [|discriminate].
  destruct (PyFloat.to_Q y) as [r|] eqn:Hy; [|discriminate].
  apply andb_true_iff in H as [Hq Hr].
  exists x, y, q, r.
  split; [reflexivity|]. split; [exact Hx|].
  split; [apply Qeq_bool_iff, Hq|].
  split; [reflexivity|]. split; [exact Hy|apply Qeq_bool_iff, Hr].
Qed.


(** X19: the library checks a string when it is assigned, so a row
    with a refused field stops [create_bundle] at the assignment: a
    refused secondary id before any identifier is drawn, a refused
    gender once the Patient is registered, and a refused subject id
    once the ResearchSubject is registered too. *)
Theorem refused_field_raises data_values c st rid :
  columns data_values = Some c ->
  faithful_row data_values = true ->
  valid_string (patient_guard c) = true ->
  valid_string (subject_guard c) = true ->
  research_study_id st = Some rid ->
  let sid := col_subject c in
  let run := create_bundle uuid4_stream valid_string valid_code data_values st in
  (valid_string (PyStr.lower (col_secondary c)) = false ->
   run = (Raises ValidationError, st)) ∧
  (valid_string (PyStr.lower (col_secondary c)) = true ->
   valid_code (PyStr.lower (col_gender c)) = false ->
   run = (Raises ValidationError, registered_patient uuid4_stream sid st)) ∧
  (valid_string (PyStr.lower (col_secondary c)) = true ->
   valid_code (PyStr.lower (col_gender c)) = true ->
   valid_string sid = false ->
   run = (Raises ValidationError,
          registered_subject uuid4_stream sid
            (registered_patient uuid4_stream sid st))).
Proof.
  intros Hc _ H1 H2 Hr sid run. subst sid run.
  rewrite create_bundle_eq. unfold bundle_outcome. rewrite Hc, H1, H2, Hr.
  split; [|split].
  - intros ->. reflexivity.
  - intros -> ->. reflexivity.
  - intros -> -> ->. reflexivity.
Qed.

End MoreFacts.

(** * The further properties on the sample data *)

Lemma short_row_index_error_witness :
  create_bundle sample_uuid4 sample_valid_string sample_valid_code
    (take 20 sample_row) sample_state
  = (Raises IndexError, sample_state).
Proof.
  apply (short_row_index_error sample_uuid4 sample_valid_string sample_valid_code
           (take 20 sample_row) sample_state).
  vm_compute. lia.
Defined.

Lemma create_bundle_outcomes_witness :
  (50 < length sample_row_bad_age)%nat ∧ is_Some (research_study_id sample_state) ∧
  ∃ c, columns sample_row_bad_age = Some c ∧
       fields_valid sample_valid_string sample_valid_code c = true ∧
       PyFloat.parse (col_age c) = None.
Proof.
  exact (create_bundle_outcomes sample_uuid4 sample_valid_string sample_valid_code
           sample_row_bad_age sample_state eq_refl).
Defined.

Lemma unreadable_age_leaves_registrations_witness :
  ∃ st',
    create_bundle sample_uuid4 sample_valid_string sample_valid_code
      sample_row_bad_age sample_state
      = (Raises ValueError, st') ∧
    patients_uuid st' !! "TCGA-2J-AAB6" = Some (sample_uuid4 0) ∧
    research_subject_uuid st' !! "TCGA-2J-AAB6" = Some (sample_uuid4 1) ∧
    condition_uuid st' = ∅ ∧
    procedure_uuid st' = ∅ ∧
    uuid4_calls st' = 2%nat ∧
    written st' = [].
Proof.
  exact (unreadable_age_leaves_registrations sample_uuid4 sample_valid_string
           sample_valid_code sample_row_bad_age
           sample_columns_bad_age sample_state "study-1"
           eq_refl eq_refl eq_refl eq_refl eq_refl).
Defined.

Lemma registries_after_accepted_row_witness :
  ∃ b st',
    create_bundle sample_uuid4 sample_valid_string sample_valid_code
      sample_row sample_state_used
      = (Returns (b, "TCGA-2J-AAB1"), st') ∧
    Forall (fun r => registry (kind_of r) st' !! "TCGA-2J-AAB1" = Some (resource_id r))
           (resources b) ∧
    patients_uuid sample_state_used !! "TCGA-2J-AAB1" = Some "earlier" ∧
    uuid4_calls st' = (0 + length (resources b))%nat.
Proof.
  destruct (registries_after_accepted_row sample_uuid4 sample_valid_string
              sample_valid_code sample_row sample_columns
              sample_decimal sample_state_used "study-1"
              sample_row_columns eq_refl sample_row_valid sample_row_age eq_refl)
    as (b & st' & Hrun & Hreg & _ & _ & Hn & _).
  exists b, st'. split; [exact Hrun|]. split; [exact Hreg|].
  split; [reflexivity|exact Hn].
Defined.

Lemma unregistered_subject_key_error_witness :
  create_research_subject sample_uuid4 sample_valid_string "TCGA-2J-AAB1" sample_state
    = (Raises KeyError, sample_state) ∧
  create_procedure sample_uuid4 "TCGA-2J-AAB1" sample_state
    = (Raises KeyError, sample_state) ∧
  create_condition sample_uuid4 "TCGA-2J-AAB1" "C25.0" "63.5" sample_state
    = (Raises KeyError, sample_state) ∧
  create_condition sample_uuid4 "TCGA-2J-AAB1" "C25.0" "unknown" sample_state
    = (Raises ValueError, sample_state) ∧
  create_condition sample_uuid4 "TCGA-2J-AAB1" "C25.0" "nan" sample_state
    = (Raises ValidationError, sample_state).
Proof.
  destruct (unregistered_subject_key_error sample_uuid4 sample_valid_string
              "TCGA-2J-AAB1" sample_state eq_refl) as (Hs & Hp & Hc).
  split; [exact Hs|]. split; [exact Hp|].
  split; [exact (Hc "C25.0" "63.5" eq_refl)|].
  split; [exact (Hc "C25.0" "unknown" eq_refl)|exact (Hc "C25.0" "nan" eq_refl)].
Defined.

Lemma bundle_independent_of_registries_witness :
  fst (create_bundle sample_uuid4 sample_valid_string sample_valid_code
         sample_row sample_state)
  = fst (create_bundle sample_uuid4 sample_valid_string sample_valid_code
           sample_row sample_state_used).
Proof.
  exact (bundle_independent_of_registries sample_uuid4 sample_valid_string
           sample_valid_code sample_row
           sample_state sample_state_used eq_refl eq_refl).
Defined.

Lemma guards_match_identifiers_witness :
  ∃ b st',
    create_bundle sample_uuid4 sample_valid_string sample_valid_code
      sample_row sample_state
      = (Returns (b, "TCGA-2J-AAB1"), st') ∧
    Forall (fun e =>
              BundleEntryRequest.ifNoneExist (BundleEntry.request e)
              = identifier_query <$> head (resource_identifiers (BundleEntry.resource e))
              ∧ (length (resource_identifiers (BundleEntry.resource e)) <= 1)%nat)
           (Bundle.entry b).
Proof.
  exact (guards_match_identifiers sample_uuid4 sample_valid_string sample_valid_code
           sample_row sample_columns
           sample_decimal sample_state "study-1"
           sample_row_columns eq_refl sample_row_valid sample_row_age eq_refl).
Defined.

Lemma entries_well_formed_witness :
  ∃ b st',
    create_bundle sample_uuid4 sample_valid_string sample_valid_code
      sample_row sample_state
      = (Returns (b, "TCGA-2J-AAB1"), st') ∧
    full_urls b = ["Patient/0"; "ResearchSubject/1"; "Condition/2"; "Procedure/3"] ∧
    NoDup (full_urls b).
Proof.
  destruct (entries_well_formed sample_uuid4 sample_valid_string sample_valid_code
              sample_row sample_columns
              sample_decimal sample_state "study-1"
              sample_row_columns eq_refl sample_row_valid sample_row_age eq_refl)
    as (b & st' & Hrun & _ & Hnd).
  exists b, st'. split; [exact Hrun|]. split; [|exact Hnd].
  rewrite (create_bundle_accepted sample_uuid4 sample_valid_string sample_valid_code
             sample_row sample_columns
             sample_decimal sample_state "study-1"
             sample_row_columns sample_row_valid sample_row_age eq_refl) in Hrun.
  injection Hrun as <- _. reflexivity.
Defined.

Lemma split_join_round_trip_witness :
  PyStr.split "009" sample_line = sample_row.
Proof.
  apply (split_join_round_trip "009" sample_row); [discriminate|].
  repeat constructor.
Defined.


Lemma line_end_stays_in_gender_witness :
  PyStr.split "009" (sample_line ++ newline)%string !! 50%nat
    = Some ("Male" ++ newline)%string ∧
  sample_valid_code ("male" ++ newline)%string = false ∧
  create_bundle sample_uuid4 sample_valid_string sample_valid_code
    (PyStr.split "009" (sample_line ++ newline)%string) sample_state
    = (Raises ValidationError,
       registered_patient sample_uuid4 "TCGA-2J-AAB1" sample_state).
Proof.
  destruct (line_end_stays_in_gender sample_uuid4 sample_valid_string
              sample_valid_code sample_line sample_columns
              sample_decimal sample_state "study-1"
              eq_refl eq_refl eq_refl eq_refl eq_refl eq_refl eq_refl
              sample_row_age eq_refl)
    as (Hfield & _ & Hrefused).
  split; [exact Hfield|]. split; [reflexivity|]. exact (Hrefused eq_refl).
Defined.

Lemma first_line_is_skipped_witness :
  ∃ rid, Some "study-1" = Some rid ∧
    main sample_uuid4 sample_valid_string sample_valid_code
      ["header"] (Some "study-1") initial
      = (Returns tt, mkState ∅ ∅ ∅ ∅ (Some rid) 0 []) ∧
    ∀ header header' rows,
      main sample_uuid4 sample_valid_string sample_valid_code
        (header :: rows) (Some "study-1") initial
      = main sample_uuid4 sample_valid_string sample_valid_code
          (header' :: rows) (Some "study-1") initial.
Proof.
  apply (first_line_is_skipped sample_uuid4 sample_valid_string sample_valid_code
           ["header"] (Some "study-1")).
  - cbn. lia.
  - reflexivity.
Defined.


Lemma float_ignores_surrounding_space_witness :
  PyFloat.parse (" " ++ "63.5" ++ newline)%string = PyFloat.parse "63.5" ∧
  ∀ sid icd st,
    fst (create_condition sample_uuid4 sid icd (" " ++ "63.5" ++ newline)%string st)
    = fst (create_condition sample_uuid4 sid icd "63.5" st).
Proof.
  apply (float_ignores_surrounding_space sample_uuid4 " " "63.5" newline);
    reflexivity.
Defined.

Lemma blank_age_raises_witness :
  create_condition sample_uuid4 "TCGA-2J-AAB1" "C25.0" "" sample_state
    = (Raises ValueError, sample_state) ∧
  create_condition sample_uuid4 "TCGA-2J-AAB1" "C25.0" "  " sample_state
    = (Raises ValueError, sample_state).
Proof.
  split.
  - apply (blank_age_raises sample_uuid4 "" "TCGA-2J-AAB1" "C25.0" sample_state).
    reflexivity.
  - apply (blank_age_raises sample_uuid4 "  " "TCGA-2J-AAB1" "C25.0" sample_state).
    reflexivity.
Defined.

Lemma sample_age_read : PyFloat.parse "63.5" = Some sample_age.
Proof. vm_compute. reflexivity. Qed.

Lemma sample_age_stored : PyDecimal.of_float sample_age = Some sample_decimal.
Proof. vm_compute. reflexivity. Qed.

Lemma minus_sign_negates_age_witness :
  PyFloat.parse "-63.5" = Some (SFopp sample_age) ∧
  ∃ cond st',
    create_condition sample_uuid4 "TCGA-2J-AAB1" "C25.0" "-63.5" sample_state_used
      = (Returns cond, st') ∧
    Condition.onsetAge cond = Age.mk (PyDecimal.mk true 635 (-1)) "a".
Proof.
  apply (minus_sign_negates_age sample_uuid4 "6" "3.5" sample_age sample_decimal
           "TCGA-2J-AAB1" "C25.0" "earlier" sample_state_used);
    first [discriminate | reflexivity | exact sample_age_read
          | exact sample_age_stored].
Defined.

Lemma whole_and_half_ages_exact_witness :
  ∃ x y q r,
    PyFloat.parse (pretty 63%nat) = Some x ∧ PyFloat.to_Q x = Some q ∧
    Qeq q (inject_Z (Z.of_nat 63)) ∧
    PyFloat.parse (pretty 63%nat +:+ ".5") = Some y ∧ PyFloat.to_Q y = Some r ∧
    Qeq r (Qmake (Z.of_nat (2 * 63 + 1)) 2).
Proof.
  apply (whole_and_half_ages_exact 63). lia.
Defined.

Lemma refused_field_raises_witness :
  create_bundle sample_uuid4 sample_valid_string sample_valid_code
    sample_row_no_secondary sample_state
  = (Raises ValidationError, sample_state).
Proof.
  destruct (refused_field_raises sample_uuid4 sample_valid_string sample_valid_code
              sample_row_no_secondary sample_columns_no_secondary
              sample_state "study-1" eq_refl eq_refl eq_refl eq_refl eq_refl)
    as (Hid & _).
  exact (Hid eq_refl).
Defined.
